(** * A shallow embedding of [survey_creation/creating_survey.py]

    The class [surveyCreation] turns the rows of a survey CSV file into the
    rows of a LimeSurvey TSV import file.  This development embeds the
    methods [group_likert], [check_adding_section], [setup_question],
    [setup_subquestion], [setup_answer], [setup_condition], [get_txt_lang]
    and [create_survey_questions] and proves properties of the grouping
    of rows, of the section headers, of the counter that names merged
    likert questions, and of the answer rows.

    Conventions of the embedding.
    - Python [str] values are [string]s of 8-bit characters; [isdigit] and
      [lower] are the ASCII ones.
    - A dictionary written to the outfile is a [gmap string string].
    - Methods that write, mutate [main_config] or raise run in the monad
      [M]: a function from the state to an outcome and the state reached.
      What was written before an exception stays written.
    - The modules [config.config] and [config.<project>], the CSV file and
      the files under [listAnswers/] are parameters of the embedding. *)

From Stdlib Require Import ZArith String Ascii List Lia.
From Stdlib Require Import DecimalString DecimalZ DecimalPos.
From stdpp Require Import base option list gmap strings sorting.

Local Open Scope nat_scope.

(** ** Python strings *)

Module Py.

Definition isdigit (c : ascii) : bool :=
  let n := nat_of_ascii c in (48 <=? n) && (n <=? 57).

Definition isupper (c : ascii) : bool :=
  let n := nat_of_ascii c in (65 <=? n) && (n <=? 90).

(** The ASCII white space of [str.strip()]. *)
Definition isspace (c : ascii) : bool :=
  let n := nat_of_ascii c in
  ((9 <=? n) && (n <=? 13)) || ((28 <=? n) && (n <=? 32)).

Definition lower_char (c : ascii) : ascii :=
  if isupper c then ascii_of_nat (nat_of_ascii c + 32) else c.

(** [s.lower()] *)
Fixpoint lower (s : string) : string :=
  match s with
  | EmptyString => EmptyString
  | String c s' => String (lower_char c) (lower s')
  end.

(** [''.join([i for i in s if keep(i)])] *)
Fixpoint join_if (keep : ascii -> bool) (s : string) : string :=
  match s with
  | EmptyString => EmptyString
  | String c s' => if keep c then String c (join_if keep s') else join_if keep s'
  end.

(** [a == b] where [b] may still be [None]. *)
Definition eq_opt (a : string) (b : option string) : bool :=
  match b with
  | Some b' => String.eqb a b'
  | None => false
  end.

(** [b is None] *)
Definition is_None {A} (b : option A) : bool :=
  match b with
  | Some _ => false
  | None => true
  end.

(** [str(n)] for an [int]. *)
Definition str (n : Z) : string := NilZero.string_of_int (Z.to_int n).

(** [sub in s] *)
Fixpoint contains (sub s : string) : bool :=
  String.prefix sub s ||
  match s with
  | EmptyString => false
  | String _ s' => contains sub s'
  end.

(** [s.split(sep)] for a non-empty [sep]: [acc] is the piece being read,
    [skip] counts the characters of a matched separator still to pass. *)
Fixpoint split_from (sep : string) (skip : nat) (acc s : string) : list string :=
  match s with
  | EmptyString => [acc]
  | String c s' =>
      match skip with
      | S skip' => split_from sep skip' acc s'
      | O =>
          if String.prefix sep s
          then acc :: split_from sep (String.length sep - 1) EmptyString s'
          else split_from sep 0 (acc +:+ String c EmptyString) s'
      end
  end.

Definition split (sep s : string) : list string :=
  split_from sep 0 EmptyString s.

(** [sep.join(l)] *)
Fixpoint join (sep : string) (l : list string) : string :=
  match l with
  | [] => EmptyString
  | [x] => x
  | x :: l' => x +:+ sep +:+ join sep l'
  end.

(** [s.replace(old, new)] for a non-empty [old]. *)
Definition replace (old new s : string) : string :=
  join new (split old s).

Fixpoint lstrip (p : ascii -> bool) (s : string) : string :=
  match s with
  | EmptyString => EmptyString
  | String c s' => if p c then lstrip p s' else s
  end.

Fixpoint rstrip (p : ascii -> bool) (s : string) : string :=
  match s with
  | EmptyString => EmptyString
  | String c s' =>
      match rstrip p s' with
      | EmptyString => if p c then EmptyString else String c EmptyString
      | r => String c r
      end
  end.

(** [s.strip()] *)
Definition strip (s : string) : string := rstrip isspace (lstrip isspace s).

(** The double quote character. *)
Definition quote : ascii := ascii_of_nat 34.

(** [s.strip(q)] where [q] is the double quote. *)
Definition strip_quote (s : string) : string :=
  let is_quote c := Ascii.eqb c quote in
  rstrip is_quote (lstrip is_quote s).

(** [s[:-1]] *)
Fixpoint but_last (s : string) : string :=
  match s with
  | EmptyString => EmptyString
  | String c EmptyString => EmptyString
  | String c s' => String c (but_last s')
  end.

End Py.

(** ** Rows of the survey file

    [csv.DictReader] yields one dictionary per line.  The columns the code
    reads by a fixed key are fields; [section] holds [int(row['section'])];
    [columns] holds the text columns, read by a computed key
    ([question], [lang_trans1], ...). *)

Record Row := {
  section : Z;
  code : string;
  answer_format : string;
  condition : string;
  answer_file : string;
  other : string;
  random : string;
  columns : gmap string string
}.

(** ** [group_likert] *)

(** The local variables of the generator that live across iterations. *)
Record tracker := {
  previous_answer_format : option string;
  previous_file_answer : option string;
  previous_code : option string;
  group_survey_q : list Row
}.

Definition tracker_init : tracker :=
  {| previous_answer_format := None;
     previous_file_answer := None;
     previous_code := None;
     group_survey_q := [] |}.

(** [not i.isdigit()] *)
Definition not_digit (i : ascii) : bool := negb (Py.isdigit i).

(** [''.join([i for i in q['code'] if not i.isdigit()])] *)
Definition current_code (q : Row) : string :=
  Py.join_if not_digit (code q).

(** [q['condition'] != ''] *)
Definition current_condition (q : Row) : bool :=
  negb (String.eqb (condition q) EmptyString).

(** One iteration of the loop: the groups it yields and the locals after
    the row was appended. *)
Definition group_step (t : tracker) (q : Row) : list (list Row) * tracker :=
  let current_answer_format := Py.lower (answer_format q) in
  let current_file_answer := answer_file q in
  let g := group_survey_q t in
  let pass := ([], g) in
  let yield := ([g], []) in
  let '(yielded, g') :=
    if String.eqb current_answer_format "likert" && negb (current_condition q) then
      if 0 <? length g then
        if Py.eq_opt current_file_answer (previous_file_answer t)
           || Py.is_None (previous_file_answer t) then
          if Py.eq_opt "likert" (previous_answer_format t) then pass else yield
        else yield
      else pass
    else if String.eqb current_answer_format "y/n/na" && negb (current_condition q) then
      if 0 <? length g then
        if Py.eq_opt (current_code q) (previous_code t)
           || Py.is_None (previous_code t) then
          if Py.eq_opt "y/n/na" (previous_answer_format t) then pass else yield
        else yield
      else pass
    else
      (if 0 <? length g then [g] else [], [])
  in
  (yielded,
   {| previous_answer_format := Some current_answer_format;
      previous_file_answer := Some current_file_answer;
      previous_code := Some (current_code q);
      group_survey_q := g' ++ [q] |}).

(** The loop, then the last [yield group_survey_q]. *)
Fixpoint group_loop (t : tracker) (indict : list Row) : list (list Row) :=
  match indict with
  | [] => [group_survey_q t]
  | q :: rest =>
      let '(yielded, t') := group_step t q in
      yielded ++ group_loop t' rest
  end.

Definition group_likert (indict : list Row) : list (list Row) :=
  group_loop tracker_init indict.

(** ** The state the methods act on *)

(** The dictionaries of [main_config] that the methods take as templates.
    The methods assign into them, so they are part of the state.  They are
    taken to be thirteen distinct objects. *)
Inductive template :=
  | group_format
  | likert_question
  | one_choice_question
  | ranking_question
  | multiple_choice_question
  | freenumeric_question
  | freetext_question
  | y_n_question
  | subquestion
  | one_choice_answer
  | multiple_choice_answer
  | likert_answer
  | ranking_answer.

#[global] Instance template_eq_dec : EqDecision template.
Proof. solve_decision. Defined.

(** Which method appended a row of the outfile, and with which arguments.
    The label is not in the file; it serves to state properties. *)
Inductive emitter :=
  | by_check_adding_section (nbr_section : Z)
  | by_setup_question (type_question : string) (row : Row)
  | by_setup_subquestion (type_question : string)
  | by_setup_answer (type_question : string).

Record written := {
  writer : emitter;
  fields : gmap string string
}.

Record State := {
  main_config : template -> gmap string string;
  outfile : list written;
  code_to_multiple_question : Z;
  shuffles : nat;
  stdout : list string
}.

(** What the run reads and does not change: the rows of the survey file,
    [f.readlines()] of each file under [listAnswers/] ([None] when it
    cannot be opened), [specific_config.sections_txt] ([None] when
    [default_row[nbr_section][lang]] fails), and the result of the n-th
    call of [random.shuffle]. *)
Record Project := {
  survey_file : list Row;
  listAnswers : string -> option (list string);
  sections_txt : Z -> string -> option (gmap string string);
  shuffle : nat -> list Row -> list Row
}.

Inductive exn :=
  | UnboundLocalError (name : string)
  | KeyError (key : string)
  | LookupError
  | FileNotFoundError (name : string)
  | RuntimeError.

Inductive outcome (A : Type) :=
  | Return (a : A)
  | Raise (e : exn).
Arguments Return {A} a.
Arguments Raise {A} e.

Definition M (A : Type) : Type := State -> outcome A * State.

#[global] Instance M_ret : MRet M := fun A a st => (Return a, st).

#[global] Instance M_bind : MBind M := fun A B k m st =>
  match m st with
  | (Return a, st') => k a st'
  | (Raise e, st') => (Raise e, st')
  end.

Definition raise {A} (e : exn) : M A := fun st => (Raise e, st).

Definition gets {A} (f : State -> A) : M A := fun st => (Return (f st), st).

Definition modify (f : State -> State) : M unit := fun st => (Return tt, f st).

(** [for x in l: body(x)] *)
Fixpoint for_each {A} (body : A -> M unit) (l : list A) : M unit :=
  match l with
  | [] => mret tt
  | x :: l' => body x ;; for_each body l'
  end.

(** [for x in l: v = body(x, v)], returning the last [v]. *)
Fixpoint for_fold {A V} (body : A -> V -> M V) (l : list A) (v : V) : M V :=
  match l with
  | [] => mret v
  | x :: l' => v' ← body x v; for_fold body l' v'
  end.

(** [d[key] = value] on a dictionary of [main_config]. *)
Definition set_item (d : template) (key value : string) : M unit :=
  modify (fun st =>
    {| main_config := fun t =>
         if decide (t = d) then <[key := value]> (main_config st t)
         else main_config st t;
       outfile := outfile st;
       code_to_multiple_question := code_to_multiple_question st;
       shuffles := shuffles st;
       stdout := stdout st |}).

(** [d.update(other)] on a dictionary of [main_config]. *)
Definition update (d : template) (other : gmap string string) : M unit :=
  modify (fun st =>
    {| main_config := fun t =>
         if decide (t = d) then other ∪ main_config st t
         else main_config st t;
       outfile := outfile st;
       code_to_multiple_question := code_to_multiple_question st;
       shuffles := shuffles st;
       stdout := stdout st |}).

Definition set_code_to_multiple_question (n : Z) : M unit :=
  modify (fun st =>
    {| main_config := main_config st;
       outfile := outfile st;
       code_to_multiple_question := n;
       shuffles := shuffles st;
       stdout := stdout st |}).

Definition print (s : string) : M unit :=
  modify (fun st =>
    {| main_config := main_config st;
       outfile := outfile st;
       code_to_multiple_question := code_to_multiple_question st;
       shuffles := shuffles st;
       stdout := stdout st ++ [s] |}).

(** [_write_row]: the dictionary as it is now goes to the end of the
    outfile.  [main_config.main_headers] is taken to hold its keys. *)
Definition _write_row (who : emitter) (d : template) : M unit :=
  modify (fun st =>
    {| main_config := main_config st;
       outfile := outfile st ++ [{| writer := who; fields := main_config st d |}];
       code_to_multiple_question := code_to_multiple_question st;
       shuffles := shuffles st;
       stdout := stdout st |}).

(** [shuffle(q)] *)
Definition random_shuffle (p : Project) (q : list Row) : M (list Row) :=
  fun st =>
    (Return (shuffle p (shuffles st) q),
     {| main_config := main_config st;
        outfile := outfile st;
        code_to_multiple_question := code_to_multiple_question st;
        shuffles := S (shuffles st);
        stdout := stdout st |}).

(** [row[key]] for a text column. *)
Definition column (row : Row) (key : string) : M string :=
  match columns row !! key with
  | Some v => mret v
  | None => raise (KeyError key)
  end.

(** ** The methods of [surveyCreation] *)

(** [check_adding_section]; [row_section] is [int(row['section'])], the
    only thing read of [row], and [default_row] is always
    [specific_config.sections_txt]. *)
Definition check_adding_section (p : Project) (row_section nbr_section : Z)
    (lang : string) : M Z :=
  if negb (row_section - 1 =? nbr_section)%Z then
    let nbr_section := (row_section - 1)%Z in
    set_item group_format "type/scale" ("G" +:+ Py.str nbr_section);;
    set_item group_format "language" lang;;
    match sections_txt p nbr_section lang with
    | Some txt =>
        update group_format txt;;
        _write_row (by_check_adding_section nbr_section) group_format;;
        mret nbr_section
    | None => raise LookupError
    end
  else mret nbr_section.

(** [get_answer]: every line of the file without its last character. *)
Definition get_answer (p : Project) (file_answer : string) : M (list string) :=
  match listAnswers p file_answer with
  | Some lines => mret (map Py.but_last lines)
  | None => raise (FileNotFoundError file_answer)
  end.

(** The [if]/[elif] chain that opens [setup_question]. *)
Definition question_template (type_question : string) : option template :=
  if String.eqb type_question "multi_likert" then Some likert_question
  else if String.eqb type_question "one choice" then Some one_choice_question
  else if String.eqb type_question "ranking" then Some ranking_question
  else if String.eqb type_question "multiple choice" then Some multiple_choice_question
  else if String.eqb type_question "freenumeric" then Some freenumeric_question
  else if String.eqb type_question "freetext" then Some freetext_question
  else if String.eqb type_question "likert" then Some likert_question
  else if String.eqb type_question "y/n/na" then Some y_n_question
  else None.

Definition setup_question (type_question : string) (row : Row)
    (txt_lang lang : string) : M unit :=
  match question_template type_question with
  | None => print type_question;; raise RuntimeError
  | Some question =>
      (if String.eqb type_question "multi_likert" then
         n ← gets code_to_multiple_question;
         set_item question "name" ("likert" +:+ Py.str n);;
         set_code_to_multiple_question (n + 1)%Z;;
         set_item question "text" EmptyString
       else
         set_item question "name" (code row);;
         text ← column row txt_lang;
         set_item question "text" text);;
      set_item question "language" lang;;
      (if String.eqb (other row) "Y" then set_item question "other" "Y"
       else set_item question "other" "N");;
      _write_row (by_setup_question type_question row) question
  end.

(** [setup_subquestion]; a caller that leaves [list_likert] and [txt_lang]
    out asks for a type that does not read them. *)
Definition setup_subquestion (type_question lang : string)
    (list_likert : list Row) (txt_lang : string) : M unit :=
  (if String.eqb type_question "multi_likert" then
     for_each (fun row =>
       set_item subquestion "relevance" "1";;
       set_item subquestion "language" lang;;
       set_item subquestion "name" (code row);;
       text ← column row txt_lang;
       set_item subquestion "text" text;;
       _write_row (by_setup_subquestion type_question) subquestion) list_likert
   else mret tt);;
  (if String.eqb type_question "ranking" then
     for_each (fun i =>
       set_item subquestion "name" (Py.str i);;
       set_item subquestion "text" ("Rank" +:+ Py.str i);;
       set_item subquestion "language" lang;;
       set_item subquestion "relevance" "1";;
       _write_row (by_setup_subquestion type_question) subquestion)
       (map Z.of_nat (seq 1 8))
   else mret tt);;
  (if String.eqb type_question "likert" then
     set_item subquestion "name" "SQ001";;
     set_item subquestion "relevance" "1";;
     set_item subquestion "language" lang;;
     _write_row (by_setup_subquestion type_question) subquestion
   else mret tt).

(** The [if]/[elif] chain of [setup_answer]; it has no [else]. *)
Definition answer_template (type_question : string) : option template :=
  if String.eqb type_question "one choice" then Some one_choice_answer
  else if String.eqb type_question "multi choice" then Some multiple_choice_answer
  else if String.eqb type_question "likert" then Some likert_answer
  else if String.eqb type_question "ranking" then Some ranking_answer
  else None.

(** [text_answer.split(';')[index_lang].strip(q)] and its [except
    IndexError] handler. *)
Definition answer_text (text_answer : string) (index_lang : nat) : M string :=
  match Py.split ";" text_answer !! index_lang with
  | Some t => mret (Py.strip_quote t)
  | None =>
      match Py.split ";" text_answer !! 0 with
      | Some t => mret (Py.strip_quote t)
      | None => raise LookupError
      end
  end.

Definition setup_answer (p : Project) (type_question : string) (row : Row)
    (index_lang : nat) (lang : string) : M unit :=
  lines ← get_answer p (answer_file row);
  for_fold (fun text_answer n =>
    match answer_template type_question with
    | None => raise (UnboundLocalError "answer_row")
    | Some answer_row =>
        set_item answer_row "name" (Py.str n);;
        text ← answer_text text_answer index_lang;
        set_item answer_row "text" text;;
        set_item answer_row "language" lang;;
        _write_row (by_setup_answer type_question) answer_row;;
        mret (n + 1)%Z
    end) lines 1%Z;;
  mret tt.

Definition get_txt_lang (lang : string) (index_lang : nat) : string :=
  if negb (String.eqb lang "en") then "lang_trans" +:+ Py.str (Z.of_nat index_lang)
  else "question".

(** What [setup_condition] computes in its first branch: the two locals
    [element_to_compare] and [list_to_compare], when [logical_element] was
    bound. *)
Definition parse_condition (condition : string)
    : outcome (option (string * list string)) :=
  if Py.contains "[" condition then
    let element_to_compare := default EmptyString (Py.split "[" condition !! 0) in
    let list_to_compare :=
      Py.replace "]" EmptyString (default EmptyString (Py.split "[" condition !! 1)) in
    let logical_element := if Py.contains "OR" list_to_compare then Some "or" else None in
    let logical_element :=
      if Py.contains "AND" list_to_compare then Some "and" else logical_element in
    match logical_element with
    | None => Raise (UnboundLocalError "logical_element")
    | Some logical_element =>
        let list_to_compare :=
          map Py.strip (Py.split (Py.lower logical_element) (Py.lower list_to_compare)) in
        let element_to_compare := Py.strip (Py.replace "in" EmptyString element_to_compare) in
        Return (Some (element_to_compare, list_to_compare))
    end
  else Return None.

Definition setup_condition (condition : string) : M unit :=
  match parse_condition condition with
  | Raise e => raise e
  | Return _ =>
      if negb (String.eqb condition EmptyString) then print condition else mret tt
  end.

(** The seven [if]s that end the loop body of [create_survey_questions]
    for a group of one row. *)
Definition one_row_question (p : Project) (row : Row) (txt_lang : string)
    (index_lang : nat) (lang : string) : M unit :=
  let answer_format := Py.lower (answer_format row) in
  (if String.eqb answer_format "one choice" then
     setup_question "one choice" row txt_lang lang;;
     setup_answer p "one choice" row index_lang lang
   else mret tt);;
  (if String.eqb answer_format "ranking" then
     setup_question "ranking" row txt_lang lang;;
     setup_subquestion "ranking" lang [] EmptyString;;
     setup_answer p "ranking" row index_lang lang
   else mret tt);;
  (if String.eqb answer_format "multiple choices" then
     setup_question "multiple choice" row txt_lang lang;;
     setup_answer p "multi choice" row index_lang lang
   else mret tt);;
  (if String.eqb answer_format "freenumeric" then
     setup_question "freenumeric" row txt_lang lang
   else mret tt);;
  (if String.eqb answer_format "freetext" then
     setup_question "freetext" row txt_lang lang
   else mret tt);;
  (if String.eqb answer_format "likert" then
     setup_question "likert" row txt_lang lang;;
     setup_subquestion "likert" lang [] EmptyString;;
     setup_answer p "likert" row index_lang lang
   else mret tt);;
  (if String.eqb answer_format "y/n/na" then
     setup_question "y/n/na" row txt_lang lang
   else mret tt).

(** The questions of several rows grouped together: the first branch of
    the loop body. *)
Definition grouped_question (p : Project) (q : list Row) (nbr_section : Z)
    (txt_lang : string) (index_lang : nat) (lang : string) : M Z :=
  match q with
  | [] => raise LookupError
  | q0 :: _ =>
      nbr_section ← check_adding_section p (section q0) nbr_section lang;
      q ← (if String.eqb (random q0) "Y" then random_shuffle p q else mret q);
      match q with
      | [] => raise LookupError
      | q0 :: _ =>
          (if String.eqb (Py.lower (answer_format q0)) "likert" then
             setup_question "multi_likert" q0 txt_lang lang;;
             setup_subquestion "multi_likert" lang q txt_lang;;
             setup_answer p "likert" q0 index_lang lang
           else if String.eqb (Py.lower (answer_format q0)) "y/n/na" then
             setup_question "y/n/na" q0 txt_lang lang
           else mret tt);;
          mret nbr_section
      end
  end.

(** The body of [for q in self.group_likert(question_to_transform)];
    [nbr_section] is the local it reads and assigns. *)
Definition group_questions (p : Project) (txt_lang : string) (index_lang : nat)
    (lang : string) (q : list Row) (nbr_section : Z) : M Z :=
  if 1 <? length q then
    grouped_question p q nbr_section txt_lang index_lang lang
  else
    for_fold (fun row nbr_section =>
      nbr_section ← check_adding_section p (section row) nbr_section lang;
      setup_condition (condition row);;
      one_row_question p row txt_lang index_lang lang;;
      mret nbr_section) q nbr_section.

(** The body of [for index_lang, lang in enumerate(self.languages)]. *)
Definition language_pass (p : Project) (index_lang : nat) (lang : string) : M unit :=
  let txt_lang := get_txt_lang lang index_lang in
  let nbr_section := (-1)%Z in
  nbr_section ← check_adding_section p 0 nbr_section lang;
  set_code_to_multiple_question 0;;
  let question_to_transform := survey_file p in
  for_fold (group_questions p txt_lang index_lang lang)
    (group_likert question_to_transform) nbr_section;;
  mret tt.

Definition create_survey_questions (p : Project) (languages : list string) : M unit :=
  for_each (fun il => language_pass p il.1 il.2) (imap pair languages).

(** ** The static helpers for headers and settings

    The dictionaries of [main_config.global_headers] and the like are
    [gmap string string]; a pair of [list_to_add] is [(obj[0], obj[1])]. *)

(** [d[key]] *)
Definition item (d : gmap string string) (key : string) : outcome string :=
  match d !! key with
  | Some v => Return v
  | None => Raise (KeyError key)
  end.

(** The inner loop of [_to_modify]: the first [e] of [modified_list] with
    the name of [element], if there is one. *)
Fixpoint replacement (element : gmap string string)
    (modified_list : list (gmap string string))
    : outcome (option (gmap string string)) :=
  match modified_list with
  | [] => Return None
  | e :: modified_list' =>
      match item element "name" with
      | Raise x => Raise x
      | Return name =>
          match item e "name" with
          | Raise x => Raise x
          | Return name' =>
              if String.eqb name name' then Return (Some e)
              else replacement element modified_list'
          end
      end
  end.

Fixpoint _to_modify (original_list modified_list : list (gmap string string))
    : outcome (list (gmap string string)) :=
  match original_list with
  | [] => Return []
  | element :: original_list' =>
      match replacement element modified_list with
      | Raise x => Raise x
      | Return to_replace =>
          match _to_modify original_list' modified_list with
          | Raise x => Raise x
          | Return return_list => Return (default element to_replace :: return_list)
          end
      end
  end.

(** [l.insert(i, x)]: a negative [i] counts from the end, and [i] is
    brought back into the bounds of [l]. *)
Definition list_insert {A} (i : Z) (x : A) (l : list A) : list A :=
  let n := Z.of_nat (length l) in
  let i := if (i <? 0)%Z then Z.max 0 (i + n) else Z.min i n in
  take (Z.to_nat i) l ++ x :: drop (Z.to_nat i) l.

Definition _to_add {A} (original_list : list A) (list_to_add : list (A * Z)) : list A :=
  fold_left (fun l obj => list_insert obj.2 obj.1 l) list_to_add original_list.

(** The loop of [_add_text_message] from the flag [message_done] on.  The
    list returned holds the elements of [full_list], the one that took the
    message with its new text. *)
Fixpoint add_text_message_from (message_done : bool)
    (full_list : list (gmap string string)) (message type_message : string)
    : outcome (list (gmap string string)) :=
  match full_list with
  | [] => Return []
  | element :: full_list' =>
      let rest done element :=
        match add_text_message_from done full_list' message type_message with
        | Raise x => Raise x
        | Return return_list => Return (element :: return_list)
        end in
      if message_done then rest true element
      else
        match item element "name" with
        | Raise x => Raise x
        | Return name =>
            if String.eqb name ("surveyls_" +:+ type_message +:+ "text")
            then rest true (<["text" := message]> element)
            else rest false element
        end
  end.

Definition _add_text_message (full_list : list (gmap string string))
    (message type_message : string) : outcome (list (gmap string string)) :=
  add_text_message_from false full_list message type_message.

(** ** Notions used in the statements *)

(** The fields of a row that [group_likert] reads. *)
Definition same_grouping_fields (q1 q2 : Row) : Prop :=
  answer_format q1 = answer_format q2 /\ condition q1 = condition q2 /\
  answer_file q1 = answer_file q2 /\ code q1 = code q2.

(** Trackers that the loop cannot tell apart. *)
Definition same_tracker (t1 t2 : tracker) : Prop :=
  previous_answer_format t1 = previous_answer_format t2 /\
  previous_file_answer t1 = previous_file_answer t2 /\
  previous_code t1 = previous_code t2 /\
  Forall2 same_grouping_fields (group_survey_q t1) (group_survey_q t2).

(** The rows of [g] have the answer format [o], lower-cased. *)
Definition one_format (o : option string) (g : list Row) : Prop :=
  forall q, q ∈ g -> Some (Py.lower (answer_format q)) = o.

(** [any(keep(i) for i in s)] *)
Fixpoint any_char (keep : ascii -> bool) (s : string) : bool :=
  match s with
  | EmptyString => false
  | String c s' => keep c || any_char keep s'
  end.

(** The code stem as the specification words it: the code with its
    trailing digits stripped.  It is compared with [current_code], which
    is what the program computes. *)
Definition spec_code_stem (code : string) : string := Py.rstrip Py.isdigit code.

(** A row with a condition never sits behind another row of its group. *)
Definition conditioned_first (g : list Row) : Prop :=
  forall i q, g !! i = Some q -> current_condition q = true -> i = 0.


(** The names of the questions that head merged likert groups. *)
Definition multi_likert_names (l : list written) : list string :=
  omap (fun w =>
    match writer w with
    | by_setup_question type_question _ =>
        if String.eqb type_question "multi_likert" then fields w !! "name" else None
    | _ => None
    end) l.

(** A group that [create_survey_questions] turns into one likert array. *)
Definition compound_likert (q : list Row) : bool :=
  match q with
  | q0 :: _ :: _ => String.eqb (Py.lower (answer_format q0)) "likert"
  | _ => false
  end.

(** What a pass wrote: the outfile after it, without the rows before it. *)
Definition written_since (st st' : State) : list written :=
  drop (length (outfile st)) (outfile st').

(** The seven values of [answer_format] that the loop body tests for. *)
Definition recognized (answer_format : string) : bool :=
  bool_decide (answer_format ∈
    ["one choice"; "ranking"; "multiple choices"; "freenumeric"; "freetext";
     "likert"; "y/n/na"]).

(** ** Relations between the state before and after a method *)

(** Nothing but rows whose writer satisfies [P] was appended, and the
    counter of merged likert questions did not move. *)
Definition quiet (P : emitter -> Prop) (st st' : State) : Prop :=
  code_to_multiple_question st' = code_to_multiple_question st /\
  exists rows, outfile st' = outfile st ++ rows /\ Forall (fun w => P (writer w)) rows.

(** [m] takes every state to one that is [R]-related to it, whether it
    returns or raises. *)
Definition keeps {A} (R : State -> State -> Prop) (m : M A) : Prop :=
  forall st, R st (m st).2.

(** The rows a group may add after its section header: no header, and
    no question but one made of a row of the group and not named by the
    counter. *)
Definition body_tag (q : list Row) (e : emitter) : Prop :=
  match e with
  | by_check_adding_section _ => False
  | by_setup_question type_question row =>
      row ∈ q /\ String.eqb type_question "multi_likert" = false
  | _ => True
  end.


(** The names the counter gives to the first [k] merged likert questions. *)
Definition likert_names (k : nat) : list string :=
  map (fun j => "likert" +:+ Py.str (Z.of_nat j)) (seq 0 k).

(** What the rows of a group add once the section was checked and [a] is
    the index tracked: first the question of a merged likert group, named
    by the counter, if the group is one; then rows that [body_tag] allows. *)
Definition body_effect (q : list Row) (a : Z) (st : State) (r : outcome Z * State) : Prop :=
  exists ml rest,
    outfile r.2 = outfile st ++ ml ++ rest /\
    Forall (fun w => body_tag q (writer w)) rest /\
    (forall x, r.1 = Return x -> x = a) /\
    ((ml = [] /\ code_to_multiple_question r.2 = code_to_multiple_question st /\
      (compound_likert q = true -> exists e, r.1 = Raise e))
     \/ (compound_likert q = true /\ exists w q0,
           ml = [w] /\ writer w = by_setup_question "multi_likert" q0 /\ q0 ∈ q /\
           fields w !! "name" = Some ("likert" +:+ Py.str (code_to_multiple_question st)) /\
           code_to_multiple_question r.2 = (code_to_multiple_question st + 1)%Z)).

(** What one turn of the loop over the groups adds: a header when the
    section of the first row is not the one tracked, then the rows of
    [body_effect]. *)
Definition group_effect (q : list Row) (nbr_section : Z) (st : State)
    (r : outcome Z * State) : Prop :=
  exists hdr ml rest,
    outfile r.2 = outfile st ++ hdr ++ ml ++ rest /\
    Forall (fun w => body_tag q (writer w)) rest /\
    match q with
    | [] => hdr = [] /\ r.1 = Return nbr_section
    | q0 :: _ =>
        let n := (section q0 - 1)%Z in
        (forall a, r.1 = Return a -> a = n) /\
        ((n = nbr_section /\ hdr = [])
         \/ (n <> nbr_section /\ exists w, hdr = [w] /\ writer w = by_check_adding_section n)
         \/ (n <> nbr_section /\ hdr = [] /\ ml = [] /\ rest = [] /\ r.1 = Raise LookupError))
    end /\
    ((ml = [] /\ code_to_multiple_question r.2 = code_to_multiple_question st /\
      (compound_likert q = true -> exists e, r.1 = Raise e))
     \/ (compound_likert q = true /\ exists w q0,
           ml = [w] /\ writer w = by_setup_question "multi_likert" q0 /\ q0 ∈ q /\
           fields w !! "name" = Some ("likert" +:+ Py.str (code_to_multiple_question st)) /\
           code_to_multiple_question r.2 = (code_to_multiple_question st + 1)%Z)).



(** The end of a line as [readlines] gives it. *)
Definition line_feed : string := String (ascii_of_nat 10) EmptyString.

(** The text of an answer, read off one line of an answer file without
    the functions of the program: the line is cut at its semicolons into
    segments; the segment for the language is the one at [index_lang], or
    the one at 0 when there is none there; the text is that segment
    without the double quotes at its two ends. *)
Definition answer_text_of (index_lang : nat) (line text : string) : Prop :=
  exists segments segment before after,
    String.concat ";" segments = line /\
    Forall (fun s => ~ In ";"%char (list_ascii_of_string s)) segments /\
    (segments !! index_lang = Some segment \/
     (segments !! index_lang = None /\ segments !! 0 = Some segment)) /\
    segment = before +:+ text +:+ after /\
    Forall (fun c => c = ascii_of_nat 34) (list_ascii_of_string before) /\
    Forall (fun c => c = ascii_of_nat 34) (list_ascii_of_string after) /\
    (forall rest, text <> String (ascii_of_nat 34) rest) /\
    (forall init, text <> init +:+ String (ascii_of_nat 34) EmptyString).

(** A group of likert rows on one answer file. *)
Definition likert_group (g : list Row) : Prop :=
  exists file, forall q, q ∈ g ->
    Py.lower (answer_format q) = "likert" /\ answer_file q = file.

(** A group of y/n/na rows whose codes have one stem. *)
Definition yes_no_group (g : list Row) : Prop :=
  exists stem, forall q, q ∈ g ->
    Py.lower (answer_format q) = "y/n/na" /\ current_code q = stem.

(** A group is one row at most, or merged for one of the two reasons. *)
Definition mergeable (g : list Row) : Prop :=
  length g <= 1 \/ likert_group g \/ yes_no_group g.

(** The three [previous_...] locals are those of the last row of the
    group in hand. *)
Definition tracks_last (t : tracker) : Prop :=
  match last (group_survey_q t) with
  | None => True
  | Some q =>
      previous_answer_format t = Some (Py.lower (answer_format q)) /\
      previous_file_answer t = Some (answer_file q) /\
      previous_code t = Some (current_code q)
  end.

(** The outfile of [st'] is the outfile of [st] with rows after it. *)
Definition appends (st st' : State) : Prop :=
  exists rows, outfile st' = outfile st ++ rows.

(** ** A small project, to run the methods on *)

Module Sample.

Definition row (section : Z) (code answer_format condition answer_file : string) : Row :=
  {| section := section; code := code; answer_format := answer_format;
     condition := condition; answer_file := answer_file;
     other := "N"; random := "N";
     columns := {[ "question" := "Text of " +:+ code ]} |}.

Definition newline : string := String (ascii_of_nat 10) EmptyString.

Definition config (t : template) : gmap string string :=
  match t with
  | group_format => {[ "class" := "G" ]}
  | subquestion => {[ "class" := "SQ" ]}
  | one_choice_answer | multiple_choice_answer | likert_answer | ranking_answer =>
      {[ "class" := "A" ]}
  | _ => {[ "class" := "Q" ]}
  end.

Definition state : State :=
  {| main_config := config; outfile := []; code_to_multiple_question := 7;
     shuffles := 0; stdout := [] |}.

Definition project (rows : list Row) : Project :=
  {| survey_file := rows;
     listAnswers := fun f =>
       if String.eqb f "agree"
       then Some ["Agree;D'accord" +:+ newline; "Disagree" +:+ newline]
       else None;
     sections_txt := fun n lang =>
       if ((0 <=? n) && (n <? 3))%Z then Some {[ "name" := "Section " +:+ Py.str n ]}
       else None;
     shuffle := fun _ q => reverse q |}.

(** Two likert rows on one answer file; the first carries a condition. *)
Definition conditioned_then_plain : list Row :=
  [row 1 "q1" "likert" "x in [a OR b]" "agree"; row 1 "q2" "likert" EmptyString "agree"].


(** Two merged likert groups apart by a free text, then a section of its own. *)
Definition two_arrays : list Row :=
  [row 1 "a1" "likert" EmptyString "agree"; row 1 "a2" "Likert" EmptyString "agree";
   row 1 "b" "freetext" EmptyString EmptyString;
   row 2 "c1" "likert" EmptyString "agree"; row 2 "c2" "likert" EmptyString "agree";
   row 3 "d" "one choice" EmptyString "agree"].

(** The rows of [two_arrays] as another file could have them: same
    [answer_format], [condition], [answer_file] and [code], all else
    changed. *)
Definition translated (q : Row) : Row :=
  {| section := section q + 10; code := code q; answer_format := answer_format q;
     condition := condition q; answer_file := answer_file q;
     other := "Y"; random := "Y";
     columns := {[ "lang_trans1" := "Texte de " +:+ code q ]} |}.

Definition two_arrays_translated : list Row := map translated two_arrays.

(** A row whose answer format is none of the seven. *)
Definition slider : Row := row 1 "s" "Slider" EmptyString EmptyString.

(** A row whose condition has a list in brackets and neither [OR] nor
    [AND]. *)
Definition bracket_without_connector : list Row :=
  [row 1 "q1" "freetext" "x in [1]" EmptyString].

(** A project whose answer file ends without an end of line. *)
Definition unterminated : Project :=
  {| survey_file := [];
     listAnswers := fun f =>
       if String.eqb f "agree"
       then Some ["Agree;D'accord" +:+ newline; "Disagree"]
       else None;
     sections_txt := fun n lang => None;
     shuffle := fun _ q => q |}.

(** Settings in the manner of [main_config.global_settings], and entries
    to put in their place. *)
Definition settings : list (gmap string string) :=
  [ {[ "class" := "S"; "name" := "admin"; "text" := "someone" ]};
    {[ "class" := "SL"; "name" := "surveyls_welcometext"; "text" := EmptyString ]};
    {[ "class" := "SL"; "name" := "surveyls_endtext"; "text" := EmptyString ]};
    {[ "class" := "SL"; "name" := "surveyls_welcometext"; "text" := "again" ]} ].

Definition settings_to_modify : list (gmap string string) :=
  [ {[ "class" := "S"; "name" := "admin"; "text" := "the project" ]};
    {[ "class" := "S"; "name" := "format"; "text" := "G" ]};
    {[ "class" := "S"; "name" := "admin"; "text" := "nobody" ]} ].

End Sample.

(** * Properties of [group_likert] *)

Section Grouping.

Implicit Types (t : tracker) (q : Row) (g : list Row) (indict : list Row).

(** Splits the goal along every test of [group_step]. *)
Ltac step_cases t :=
  unfold group_step;
  destruct (group_survey_q t) as [|? ?]; simpl length;
  change (0 <? 0) with false; change (0 <? S ?n) with true;
  repeat match goal with
         | |- context [if ?b then _ else _] => destruct b eqn:?
         end;
  simpl.

Lemma group_step_concat t q :
  concat (group_step t q).1 ++ group_survey_q (group_step t q).2
  = group_survey_q t ++ [q].
Proof.
  step_cases t; rewrite ?app_nil_r; reflexivity.
Qed.

Lemma group_loop_concat indict : forall t,
  concat (group_loop t indict) = group_survey_q t ++ indict.
Proof.
  induction indict as [|q rest IH]; intros t; simpl.
  - by rewrite !app_nil_r.
  - pose proof (group_step_concat t q) as Hstep.
    destruct (group_step t q) as [yielded t']; simpl in Hstep.
    rewrite concat_app, IH, app_assoc, Hstep, <- app_assoc. reflexivity.
Qed.

(** C5. The groups that [group_likert] yields, put end to end in the order
    of the yields, are the rows it was given in their order: no row is
    dropped, repeated or moved, so every row is in one group only. *)
Theorem group_likert_partition indict :
  concat (group_likert indict) = indict.
Proof. unfold group_likert. by rewrite group_loop_concat. Qed.

Lemma group_step_nonempty t q :
  Forall (fun g => g <> []) (group_step t q).1
  /\ group_survey_q (group_step t q).2 <> [].
Proof.
  split.
  - step_cases t; by repeat constructor.
  - step_cases t; discriminate.
Qed.

Lemma group_loop_nonempty indict : forall t,
  group_survey_q t <> [] \/ indict <> [] ->
  Forall (fun g => g <> []) (group_loop t indict).
Proof.
  induction indict as [|q rest IH]; intros t Hne; simpl.
  - destruct Hne as [Hne|Hne]; [by repeat constructor | done].
  - destruct (group_step_nonempty t q) as [Hy Hg].
    destruct (group_step t q) as [yielded t']; simpl in *.
    apply Forall_app; split; [done|]. apply IH. by left.
Qed.

(** X2. When there is a row to group, no group that is yielded is empty. *)
Lemma group_likert_nonempty indict :
  indict <> [] -> Forall (fun g => g <> []) (group_likert indict).
Proof. intros H. apply group_loop_nonempty. by right. Qed.

(** C10. On an empty survey file the generator yields one group, and that
    group is empty: the [yield] after the loop is not guarded. *)
Theorem group_likert_empty_input : group_likert [] = [[]].
Proof. reflexivity. Qed.

Lemma conditioned_first_nil : conditioned_first [].
Proof. intros i q H. by rewrite lookup_nil in H. Qed.

Lemma conditioned_first_singleton q : conditioned_first [q].
Proof.
  intros i q' H _. destruct i; [done|]. simpl in H. by rewrite lookup_nil in H.
Qed.

Lemma conditioned_first_snoc g q :
  conditioned_first g -> current_condition q = false -> conditioned_first (g ++ [q]).
Proof.
  intros Hg Hq i q' Hi Hc.
  apply lookup_snoc_Some in Hi as [[_ Hi]|[_ ->]]; [by eapply Hg | congruence].
Qed.

Lemma group_step_conditioned_first t q :
  conditioned_first (group_survey_q t) ->
  Forall conditioned_first (group_step t q).1
  /\ conditioned_first (group_survey_q (group_step t q).2).
Proof.
  intros Hg. destruct (current_condition q) eqn:Hq.
  - unfold group_step. rewrite Hq. simpl. rewrite !andb_false_r.
    split; [|apply conditioned_first_singleton].
    destruct (0 <? length (group_survey_q t)); by repeat constructor.
  - split; revert Hg; step_cases t; intros Hg.
    all: try by repeat constructor.
    all: first [ by apply (conditioned_first_snoc (_ :: _))
               | apply conditioned_first_singleton ].
Qed.

Lemma group_loop_conditioned_first indict : forall t,
  conditioned_first (group_survey_q t) ->
  Forall conditioned_first (group_loop t indict).
Proof.
  induction indict as [|q rest IH]; intros t Hg; simpl.
  - by repeat constructor.
  - destruct (group_step_conditioned_first t q Hg) as [Hy Hg'].
    destruct (group_step t q) as [yielded t']; simpl in *.
    apply Forall_app; split; [done | by apply IH].
Qed.

(** X1. A row with a condition opens its group: it is never put behind
    the row before it. *)
Lemma group_likert_conditioned_first indict :
  Forall conditioned_first (group_likert indict).
Proof. apply group_loop_conditioned_first, conditioned_first_nil. Qed.

(** C1. A likert row with a condition, followed by a likert row without
    one on the same answer file: the generator yields both in one group,
    so the row with a condition is merged with the row after it. *)
Theorem group_likert_merges_after_condition :
  group_likert Sample.conditioned_then_plain = [Sample.conditioned_then_plain].
Proof. reflexivity. Qed.

Lemma group_step_same_fields t1 t2 q1 q2 :
  same_tracker t1 t2 -> same_grouping_fields q1 q2 ->
  Forall2 (Forall2 same_grouping_fields) (group_step t1 q1).1 (group_step t2 q2).1
  /\ same_tracker (group_step t1 q1).2 (group_step t2 q2).2.
Proof.
  intros (Hf & Hfile & Hcode & Hg) (Hqf & Hqc & Hqfile & Hqcode).
  pose proof (Forall2_length _ _ _ Hg) as Hlen.
  assert (Hsnoc : forall g1 g2, Forall2 same_grouping_fields g1 g2 ->
            Forall2 same_grouping_fields (g1 ++ [q1]) (g2 ++ [q2])).
  { intros g1 g2 H. apply Forall2_app; [done|]. by repeat constructor. }
  unfold same_tracker, group_step, current_code, current_condition.
  rewrite Hf, Hfile, Hcode, Hqf, Hqc, Hqfile, Hqcode, Hlen.
  repeat match goal with
         | |- context [if ?b then _ else _] => destruct b eqn:?
         end; simpl; repeat split; auto; repeat constructor; auto.
Qed.

Lemma group_loop_same_fields indict1 indict2 :
  Forall2 same_grouping_fields indict1 indict2 ->
  forall t1 t2, same_tracker t1 t2 ->
  Forall2 (Forall2 same_grouping_fields) (group_loop t1 indict1) (group_loop t2 indict2).
Proof.
  induction 1 as [|q1 q2 rest1 rest2 Hq _ IH]; intros t1 t2 Ht; simpl.
  - destruct Ht as (_ & _ & _ & Hg). by repeat constructor.
  - destruct (group_step_same_fields t1 t2 q1 q2 Ht Hq) as [Hy Ht'].
    destruct (group_step t1 q1) as [y1 t1'], (group_step t2 q2) as [y2 t2'].
    apply Forall2_app; [done | by apply IH].
Qed.

(** C6. Two sequences of rows of one length that agree, row by row, on
    [answer_format], [condition], [answer_file] and [code] are cut into
    groups at the same places: the groups have the same lengths in the same
    order, and rows at the same place of the same group agree on the four
    fields.  Text columns and the other fields have no say. *)
Theorem group_likert_reads_four_fields indict1 indict2 :
  Forall2 same_grouping_fields indict1 indict2 ->
  map length (group_likert indict1) = map length (group_likert indict2)
  /\ Forall2 (Forall2 same_grouping_fields) (group_likert indict1) (group_likert indict2).
Proof.
  intros H.
  assert (Hg : Forall2 (Forall2 same_grouping_fields)
                 (group_likert indict1) (group_likert indict2)).
  { apply group_loop_same_fields; [done|]. by repeat split; try constructor. }
  split; [|done].
  induction Hg as [|g1 g2 l1 l2 Hgg _ IH]; simpl; [done|].
  f_equal; [by eapply Forall2_length | done].
Qed.

Lemma group_step_one_format t q :
  one_format (previous_answer_format t) (group_survey_q t) ->
  Forall (fun g => exists o, one_format o g) (group_step t q).1
  /\ one_format (previous_answer_format (group_step t q).2)
       (group_survey_q (group_step t q).2).
Proof.
  intros Hg.
  assert (Hone : one_format (Some (Py.lower (answer_format q))) [q]).
  { intros q' Hq'. apply list_elem_of_singleton in Hq'. by subst. }
  split; revert Hg; step_cases t; intros Hg.
  all: try (repeat constructor; by eauto).
  all: try exact Hone.
  all: intros q' Hq'; change (q' ∈ (r :: l) ++ [q]) in Hq';
    apply elem_of_app in Hq' as [Hq'|Hq']; [|by apply Hone];
    rewrite (Hg q' Hq');
    match goal with
    | H : Py.eq_opt _ (previous_answer_format ?t') = true |- _ =>
        unfold Py.eq_opt in H; destruct (previous_answer_format t'); [|done];
        apply String.eqb_eq in H; subst
    end;
    match goal with
    | H : (String.eqb _ _ && _) = true |- _ =>
        apply andb_prop in H as [H _]; apply String.eqb_eq in H; by rewrite H
    end.
Qed.

Lemma group_loop_one_format indict : forall t,
  one_format (previous_answer_format t) (group_survey_q t) ->
  Forall (fun g => exists o, one_format o g) (group_loop t indict).
Proof.
  induction indict as [|q rest IH]; intros t Hg; simpl.
  - repeat constructor. eauto.
  - destruct (group_step_one_format t q Hg) as [Hy Hg'].
    destruct (group_step t q) as [yielded t']; simpl in *.
    apply Forall_app; split; [done | by apply IH].
Qed.

(** Within a group that is yielded, all rows have one answer format. *)
Lemma group_likert_one_format indict g q q' :
  g ∈ group_likert indict -> q ∈ g -> q' ∈ g ->
  Py.lower (answer_format q) = Py.lower (answer_format q').
Proof.
  intros Hg Hq Hq'.
  assert (H : Forall (fun g => exists o, one_format o g) (group_likert indict)).
  { apply group_loop_one_format. intros ? Hin. by apply elem_of_nil in Hin. }
  rewrite Forall_forall in H. destruct (H g Hg) as [o Ho].
  pose proof (Ho q Hq) as H1. pose proof (Ho q' Hq') as H2. congruence.
Qed.

End Grouping.

(** * The code stem *)

Section CodeStem.

Lemma join_if_filter keep s :
  list_ascii_of_string (Py.join_if keep s)
  = List.filter keep (list_ascii_of_string s).
Proof.
  induction s as [|c s IH]; simpl; [done|].
  destruct (keep c); simpl; by rewrite IH.
Qed.

Lemma join_if_no_digit s :
  any_char Py.isdigit s = false -> Py.join_if not_digit s = s.
Proof.
  induction s as [|c s IH]; simpl; [done|].
  intros [Hc Hs]%orb_false_elim. unfold not_digit at 1.
  rewrite Hc. simpl. by rewrite IH.
Qed.

Lemma join_if_has_no_digit s :
  any_char Py.isdigit (Py.join_if not_digit s) = false.
Proof.
  induction s as [|c s IH]; simpl; [done|].
  unfold not_digit at 1. destruct (Py.isdigit c) eqn:Hc; simpl; [done|].
  by rewrite Hc, IH.
Qed.

Lemma join_if_rstrip s :
  Py.join_if not_digit (Py.rstrip Py.isdigit s) = Py.join_if not_digit s.
Proof.
  induction s as [|c s IH]; simpl; [done|].
  destruct (Py.rstrip Py.isdigit s) as [|c' r] eqn:Hr.
  - simpl in IH. rewrite <- IH. unfold not_digit.
    destruct (Py.isdigit c) eqn:Hc; simpl; [done|]. by rewrite Hc.
  - rewrite <- IH. reflexivity.
Qed.

(** C8, as the program has it.  [current_code] is the code without any of
    its digits, wherever they stand, the other characters kept in their
    order; it is the code with its trailing digits stripped exactly when
    no digit is left once the trailing ones are stripped. *)
Theorem current_code_drops_every_digit q :
  list_ascii_of_string (current_code q)
  = List.filter (fun i => negb (Py.isdigit i)) (list_ascii_of_string (code q))
  /\ (current_code q = spec_code_stem (code q)
      <-> any_char Py.isdigit (spec_code_stem (code q)) = false).
Proof.
  split; [apply join_if_filter|].
  unfold current_code, spec_code_stem. split.
  - intros <-. apply join_if_has_no_digit.
  - intros H. rewrite <- join_if_rstrip. by apply join_if_no_digit.
Qed.

(** C8, as stated, fails: for the code [Q1a] the program compares the stem
    [Qa], and stripping the trailing digits leaves [Q1a]. *)
Lemma current_code_is_not_spec_code_stem :
  ~ (forall q, current_code q = spec_code_stem (code q)).
Proof.
  intros H.
  specialize (H (Sample.row 1 "Q1a" "y/n/na" EmptyString EmptyString)).
  discriminate H.
Qed.

End CodeStem.

(** * The effects of the methods *)

Section Effects.

Implicit Types (p : Project) (st : State) (P : emitter -> Prop).

Lemma bind_run {A B} (m : M A) (k : A -> M B) st :
  (m ≫= k) st
  = match m st with
    | (Return a, st') => k a st'
    | (Raise e, st') => (Raise e, st')
    end.
Proof. reflexivity. Qed.

#[global] Instance quiet_preorder P : PreOrder (quiet P).
Proof.
  split.
  - intros st. split; [done|]. exists []. by rewrite app_nil_r.
  - intros st1 st2 st3 (Hc1 & r1 & Ho1 & Hr1) (Hc2 & r2 & Ho2 & Hr2).
    split; [congruence|]. exists (r1 ++ r2).
    rewrite Ho2, Ho1, <- app_assoc. split; [done|]. by apply Forall_app.
Qed.

Lemma quiet_mono P Q st st' :
  (forall e, P e -> Q e) -> quiet P st st' -> quiet Q st st'.
Proof.
  intros HPQ (Hc & rows & Ho & Hr). split; [done|]. exists rows. split; [done|].
  eapply Forall_impl; [exact Hr|]. simpl. auto.
Qed.

Lemma keeps_mono {A} P Q (m : M A) :
  (forall e, P e -> Q e) -> keeps (quiet P) m -> keeps (quiet Q) m.
Proof. intros HPQ Hm st. eapply quiet_mono; [exact HPQ | apply Hm]. Qed.

Section Keeps.

Context (R : State -> State -> Prop) `{!PreOrder R}.

Lemma keeps_ret {A} (a : A) : keeps R (mret a).
Proof. intros st. simpl. reflexivity. Qed.

Lemma keeps_raise {A} e : keeps R (raise e : M A).
Proof. intros st. simpl. reflexivity. Qed.

Lemma keeps_gets {A} (f : State -> A) : keeps R (gets f).
Proof. intros st. simpl. reflexivity. Qed.

Lemma keeps_bind {A B} (m : M A) (k : A -> M B) :
  keeps R m -> (forall a, keeps R (k a)) -> keeps R (m ≫= k).
Proof.
  intros Hm Hk st. rewrite bind_run. specialize (Hm st).
  destruct (m st) as [[a|e] st']; simpl in *; [|done].
  etrans; [exact Hm | apply Hk].
Qed.

Lemma keeps_for_each {A} (body : A -> M unit) l :
  (forall x, keeps R (body x)) -> keeps R (for_each body l).
Proof.
  intros Hb. induction l as [|x l IH]; simpl.
  - apply keeps_ret.
  - apply keeps_bind; [apply Hb | by intros _].
Qed.

Lemma keeps_for_fold {A V} (body : A -> V -> M V) l : forall v,
  (forall x v', keeps R (body x v')) -> keeps R (for_fold body l v).
Proof.
  induction l as [|x l IH]; intros v Hb; simpl.
  - apply keeps_ret.
  - apply keeps_bind; [apply Hb | intros v'; by apply IH].
Qed.

End Keeps.

Lemma quiet_ret {A} P (a : A) : keeps (quiet P) (mret a).
Proof. apply keeps_ret, _. Qed.

Lemma quiet_raise {A} P e : keeps (quiet P) (raise e : M A).
Proof. apply keeps_raise, _. Qed.

Lemma quiet_gets {A} P (f : State -> A) : keeps (quiet P) (gets f).
Proof. apply keeps_gets, _. Qed.

Lemma quiet_bind {A B} P (m : M A) (k : A -> M B) :
  keeps (quiet P) m -> (forall a, keeps (quiet P) (k a)) -> keeps (quiet P) (m ≫= k).
Proof. apply keeps_bind, _. Qed.

Lemma quiet_for_each {A} P (body : A -> M unit) l :
  (forall x, keeps (quiet P) (body x)) -> keeps (quiet P) (for_each body l).
Proof. apply keeps_for_each, _. Qed.

Lemma quiet_for_fold {A V} P (body : A -> V -> M V) l v :
  (forall x v', keeps (quiet P) (body x v')) -> keeps (quiet P) (for_fold body l v).
Proof. apply keeps_for_fold, _. Qed.

Lemma quiet_modify P f :
  (forall st, outfile (f st) = outfile st
              /\ code_to_multiple_question (f st) = code_to_multiple_question st) ->
  keeps (quiet P) (modify f).
Proof.
  intros Hf st. destruct (Hf st) as [Ho Hc]. simpl. split; [done|].
  exists []. by rewrite app_nil_r.
Qed.

Lemma quiet_set_item P d key value : keeps (quiet P) (set_item d key value).
Proof. by apply quiet_modify. Qed.

Lemma quiet_update P d other : keeps (quiet P) (update d other).
Proof. by apply quiet_modify. Qed.

Lemma quiet_print P s : keeps (quiet P) (print s).
Proof. by apply quiet_modify. Qed.

Lemma quiet_write_row P who d : P who -> keeps (quiet P) (_write_row who d).
Proof.
  intros Hw st. simpl. split; [done|]. eexists. split; [done|]. by repeat constructor.
Qed.

Lemma quiet_random_shuffle P p q : keeps (quiet P) (random_shuffle p q).
Proof. intros st. simpl. split; [done|]. exists []. by rewrite app_nil_r. Qed.

Lemma quiet_column P row key : keeps (quiet P) (column row key).
Proof. unfold column. destruct (_ !! _); [apply quiet_ret | apply quiet_raise]. Qed.

Lemma quiet_get_answer P p file_answer : keeps (quiet P) (get_answer p file_answer).
Proof.
  unfold get_answer. destruct (listAnswers _ _); [apply quiet_ret | apply quiet_raise].
Qed.

Lemma quiet_answer_text P text_answer index_lang :
  keeps (quiet P) (answer_text text_answer index_lang).
Proof.
  unfold answer_text.
  repeat destruct (_ !! _); first [apply quiet_ret | apply quiet_raise].
Qed.

(** Takes a method apart along its binds, loops and tests. *)
Ltac quiet_steps :=
  cbv zeta;
  repeat first
    [ apply quiet_set_item | apply quiet_update | apply quiet_print
    | apply quiet_column | apply quiet_get_answer | apply quiet_answer_text
    | apply quiet_random_shuffle
    | apply quiet_ret | apply quiet_raise | apply quiet_gets
    | apply quiet_bind; [ | intros ?]
    | apply quiet_for_each; intros ?
    | apply quiet_for_fold; intros ? ?
    | match goal with
      | |- keeps _ (if ?b then _ else _) => destruct b eqn:?
      | |- keeps _ (match ?x with _ => _ end) => destruct x eqn:?
      end ].

Lemma quiet_setup_subquestion type_question lang list_likert txt_lang :
  keeps (quiet (fun e => exists t, e = by_setup_subquestion t))
    (setup_subquestion type_question lang list_likert txt_lang).
Proof. unfold setup_subquestion. quiet_steps; apply quiet_write_row; eauto. Qed.

Lemma quiet_setup_answer p type_question row index_lang lang :
  keeps (quiet (fun e => exists t, e = by_setup_answer t))
    (setup_answer p type_question row index_lang lang).
Proof. unfold setup_answer. quiet_steps; apply quiet_write_row; eauto. Qed.

Lemma quiet_setup_condition P condition : keeps (quiet P) (setup_condition condition).
Proof. unfold setup_condition. quiet_steps. Qed.

Lemma quiet_setup_question type_question row txt_lang lang :
  String.eqb type_question "multi_likert" = false ->
  keeps (quiet (fun e => e = by_setup_question type_question row))
    (setup_question type_question row txt_lang lang).
Proof.
  intros Hty. unfold setup_question. rewrite Hty.
  quiet_steps; by apply quiet_write_row.
Qed.

Lemma quiet_one_row_question p row txt_lang index_lang lang :
  keeps (quiet (body_tag [row])) (one_row_question p row txt_lang index_lang lang).
Proof.
  unfold one_row_question. cbv zeta.
  repeat first
    [ apply quiet_ret
    | eapply keeps_mono; [|apply quiet_setup_question; reflexivity];
      intros e ->; simpl; split; [by apply list_elem_of_singleton | reflexivity]
    | eapply keeps_mono; [|apply quiet_setup_subquestion]; by intros e [t ->]
    | eapply keeps_mono; [|apply quiet_setup_answer]; by intros e [t ->]
    | match goal with
      | |- keeps _ (if ?b then _ else _) => destruct b
      end
    | apply quiet_bind; [ | intros ?] ].
Qed.

End Effects.

Section GroupEffects.

Implicit Types (p : Project) (st : State) (q : list Row).

(** What [check_adding_section] does: nothing when the section is the one
    tracked; else one header for the new index, unless the section text
    is missing. *)
Lemma check_adding_section_effect p row_section nbr_section lang st :
  let r := check_adding_section p row_section nbr_section lang st in
  let n := (row_section - 1)%Z in
  code_to_multiple_question r.2 = code_to_multiple_question st /\
  ((n = nbr_section /\ r = (Return nbr_section, st))
   \/ (n <> nbr_section /\ r.1 = Return n /\
       exists w, outfile r.2 = outfile st ++ [w] /\ writer w = by_check_adding_section n)
   \/ (n <> nbr_section /\ r.1 = Raise LookupError /\ outfile r.2 = outfile st)).
Proof.
  unfold check_adding_section. simpl.
  destruct (row_section - 1 =? nbr_section)%Z eqn:Heq; simpl.
  - apply Z.eqb_eq in Heq. split; [done|]. by left.
  - apply Z.eqb_neq in Heq. rewrite !bind_run. simpl.
    destruct (sections_txt p _ lang) as [txt|]; simpl.
    + split; [done|]. right; left. repeat split; [done|]. eexists. by split.
    + split; [done|]. right; right. by repeat split.
Qed.

(** What [setup_question] does for a merged likert group: it writes one
    question named after the counter and moves the counter by one. *)
Lemma setup_question_multi_likert row txt_lang lang st :
  let r := setup_question "multi_likert" row txt_lang lang st in
  r.1 = Return tt /\
  code_to_multiple_question r.2 = (code_to_multiple_question st + 1)%Z /\
  exists w, outfile r.2 = outfile st ++ [w] /\
    writer w = by_setup_question "multi_likert" row /\
    fields w !! "name" = Some ("likert" +:+ Py.str (code_to_multiple_question st)).
Proof.
  unfold setup_question. simpl. rewrite !bind_run. simpl.
  destruct (String.eqb (other row) "Y"); simpl;
    (repeat split; [];
     eexists; split; [reflexivity|]; split; [reflexivity|]; simpl;
     by rewrite !lookup_insert_ne, lookup_insert_eq by done).
Qed.

Lemma bind_ret_r {A} (m : M A) st : (m ≫= fun a => mret a) st = m st.
Proof. rewrite bind_run. by destruct (m st) as [[a|e] st']. Qed.

Lemma check_then_run {A} p row_section nbr_section lang (K : Z -> M A) st :
  let r := (check_adding_section p row_section nbr_section lang ≫= K) st in
  let n := (row_section - 1)%Z in
  (n = nbr_section /\ r = K nbr_section st)
  \/ (n <> nbr_section /\ exists w st1,
        outfile st1 = outfile st ++ [w] /\ writer w = by_check_adding_section n /\
        code_to_multiple_question st1 = code_to_multiple_question st /\ r = K n st1)
  \/ (n <> nbr_section /\ exists st1,
        outfile st1 = outfile st /\
        code_to_multiple_question st1 = code_to_multiple_question st /\
        r = (Raise LookupError, st1)).
Proof.
  cbv zeta. rewrite bind_run.
  destruct (check_adding_section_effect p row_section nbr_section lang st) as [Hc Hcases].
  destruct (check_adding_section p row_section nbr_section lang st) as [o st1].
  simpl in *.
  destruct Hcases as [(Hn & Heq) | [(Hn & -> & w & Hout & Hw) | (Hn & -> & Hout)]].
  - left. by simplify_eq.
  - right; left. split; [done|]. by exists w, st1.
  - right; right. split; [done|]. by exists st1.
Qed.

Lemma group_effect_of_body p (q0 : Row) q nbr_section lang (K : Z -> M Z) st :
  (forall a st', body_effect (q0 :: q) a st' (K a st')) ->
  group_effect (q0 :: q) nbr_section st
    ((check_adding_section p (section q0) nbr_section lang ≫= K) st).
Proof.
  intros HK.
  destruct (check_then_run p (section q0) nbr_section lang K st)
    as [(Hn & ->) | [(Hn & w & st1 & Hout & Hw & Hc & ->) | (Hn & st1 & Hout & Hc & ->)]].
  - destruct (HK nbr_section st) as (ml & rest & Ho & Hrest & Hret & Hml).
    exists [], ml, rest. split; [done|]. split; [done|]. split; [|done].
    split; [|by left]. intros a Ha. rewrite (Hret a Ha). done.
  - destruct (HK (section q0 - 1)%Z st1) as (ml & rest & Ho & Hrest & Hret & Hml).
    exists [w], ml, rest. rewrite Ho, Hout, <- app_assoc. split; [done|].
    split; [done|]. split.
    + split; [done|]. right; left. split; [done|]. by exists w.
    + by rewrite <- Hc.
  - exists [], [], []. simpl. rewrite app_nil_r. split; [done|].
    split; [constructor|]. split.
    + split; [done|]. right; right. done.
    + left. split; [done|]. split; [done|]. eauto.
Qed.

Lemma bind_assoc_run {A B C} (m : M A) (k : A -> M B) (h : B -> M C) st :
  ((m ≫= k) ≫= h) st = (m ≫= fun a => k a ≫= h) st.
Proof. rewrite !bind_run. by destruct (m st) as [[a|e] st']. Qed.

Lemma then_ret_outcome {A B} (m : M A) (b x : B) st :
  ((m ≫= fun _ => mret b) st).1 = Return x -> x = b.
Proof.
  rewrite bind_run. destruct (m st) as [[a|e] st']; simpl; [|done]. congruence.
Qed.

Lemma quiet_run {A} P (m : M A) st :
  keeps (quiet P) m ->
  code_to_multiple_question (m st).2 = code_to_multiple_question st /\
  exists rows, outfile (m st).2 = outfile st ++ rows /\ Forall (fun w => P (writer w)) rows.
Proof. intros Hm. apply Hm. Qed.

(** The rows of a group of one row. *)
Lemma one_row_body_effect p row txt_lang index_lang lang a st :
  body_effect [row] a st
    ((setup_condition (condition row);;
      one_row_question p row txt_lang index_lang lang;;
      mret a) st).
Proof.
  match goal with |- body_effect _ _ _ (?m st) => set (K := m) end.
  assert (HK : keeps (quiet (body_tag [row])) K).
  { apply quiet_bind; [apply quiet_setup_condition | intros _].
    apply quiet_bind; [apply quiet_one_row_question | intros _]. apply quiet_ret. }
  destruct (quiet_run _ K st HK) as (Hc & rows & Ho & Hrows).
  exists [], rows. split; [done|]. split; [done|]. split.
  - intros x Hx. subst K. rewrite <- bind_assoc_run in Hx. by apply then_ret_outcome in Hx.
  - left. by repeat split.
Qed.

(** The rows of a group of several rows, from the [shuffle] on. *)
Lemma grouped_body_effect p (q0 q1 : Row) q txt_lang index_lang lang a st :
  (forall n l, shuffle p n l ≡ₚ l) ->
  (forall r r', r ∈ q0 :: q1 :: q -> r' ∈ q0 :: q1 :: q ->
     Py.lower (answer_format r) = Py.lower (answer_format r')) ->
  body_effect (q0 :: q1 :: q) a st
    (((if String.eqb (random q0) "Y" then random_shuffle p (q0 :: q1 :: q)
       else mret (q0 :: q1 :: q)) ≫= fun q' =>
      match q' with
      | [] => raise LookupError
      | q0' :: _ =>
          (if String.eqb (Py.lower (answer_format q0')) "likert" then
             setup_question "multi_likert" q0' txt_lang lang;;
             setup_subquestion "multi_likert" lang q' txt_lang;;
             setup_answer p "likert" q0' index_lang lang
           else if String.eqb (Py.lower (answer_format q0')) "y/n/na" then
             setup_question "y/n/na" q0' txt_lang lang
           else mret tt);;
          mret a
      end) st).
Proof.
  intros Hperm Hfmt. set (g := q0 :: q1 :: q) in *.
  rewrite bind_run.
  assert (Hsh : exists q' st1,
    (if String.eqb (random q0) "Y" then random_shuffle p g else mret g) st
      = (Return q', st1) /\ q' ≡ₚ g /\ outfile st1 = outfile st /\
    code_to_multiple_question st1 = code_to_multiple_question st).
  { destruct (String.eqb (random q0) "Y"); simpl; eauto 10. }
  destruct Hsh as (q' & st1 & -> & Hq' & Ho1 & Hc1).
  unfold body_effect. rewrite <- Ho1, <- Hc1. clear Ho1 Hc1 st.
  destruct q' as [|q0' q'tl] eqn:Eq'.
  { symmetry in Hq'. by apply Permutation_nil_r in Hq'. }
  rewrite <- Eq' in *.
  assert (Hin : q0' ∈ g). { rewrite <- Hq', Eq'. by left. }
  assert (Hsub : forall e, (exists t, e = by_setup_subquestion t) -> body_tag g e).
  { by intros e [t ->]. }
  assert (Hans : forall e, (exists t, e = by_setup_answer t) -> body_tag g e).
  { by intros e [t ->]. }
  assert (Hcl : compound_likert g = String.eqb (Py.lower (answer_format q0')) "likert").
  { simpl. f_equal. apply Hfmt; [by left | done]. }
  rewrite Hcl.
  destruct (String.eqb (Py.lower (answer_format q0')) "likert") eqn:Hlikert.
  - destruct (setup_question_multi_likert q0' txt_lang lang st1)
      as (Hret & Hc & w & Ho & Hw & Hname).
    set (K := (setup_subquestion "multi_likert" lang q' txt_lang;;
               setup_answer p "likert" q0' index_lang lang) : M unit).
    assert (HK : keeps (quiet (body_tag g)) K).
    { apply quiet_bind; [|intros _].
      - eapply keeps_mono; [exact Hsub | apply quiet_setup_subquestion].
      - eapply keeps_mono; [exact Hans | apply quiet_setup_answer]. }
    rewrite bind_assoc_run, bind_run.
    destruct (setup_question "multi_likert" q0' txt_lang lang st1) as [o st2].
    simpl in Hret, Hc, Ho. subst o.
    destruct (quiet_run _ K st2 HK) as (Hc2 & rows & Ho2 & Hrows).
    exists [w], rows. fold K.
    assert (Hst : ((K ≫= fun _ => mret a) st2).2 = (K st2).2).
    { rewrite bind_run. by destruct (K st2) as [[[]|e] st3]. }
    rewrite Hst, Ho2, Ho, <- app_assoc. split; [done|]. split; [done|]. split.
    + intros x. apply then_ret_outcome.
    + right. split; [done|]. exists w, q0'. repeat split; try done. congruence.
  - set (K := (if String.eqb (Py.lower (answer_format q0')) "y/n/na"
               then setup_question "y/n/na" q0' txt_lang lang else mret tt) : M unit).
    assert (HK : keeps (quiet (body_tag g)) K).
    { subst K. destruct (String.eqb _ "y/n/na"); [|apply quiet_ret].
      eapply keeps_mono; [|by apply quiet_setup_question].
      intros e ->. by split. }
    destruct (quiet_run (body_tag g) (K ≫= fun _ => mret a) st1)
      as (Hc2 & rows & Ho2 & Hrows).
    { apply quiet_bind; [done | intros _; apply quiet_ret]. }
    exists [], rows. split; [done|]. split; [done|]. split.
    + intros x. apply then_ret_outcome.
    + left. by repeat split.
Qed.

(** What one turn of [for q in self.group_likert(question_to_transform)]
    adds to the outfile and to the counter. *)
Lemma group_questions_effect p txt_lang index_lang lang q nbr_section st :
  (forall n l, shuffle p n l ≡ₚ l) ->
  (forall r r', r ∈ q -> r' ∈ q ->
     Py.lower (answer_format r) = Py.lower (answer_format r')) ->
  group_effect q nbr_section st
    (group_questions p txt_lang index_lang lang q nbr_section st).
Proof.
  intros Hperm Hfmt. unfold group_questions.
  destruct q as [|q0 [|q1 q]].
  - exists [], [], []. simpl. rewrite app_nil_r.
    repeat split; try done. left. by repeat split.
  - change (1 <? length [q0]) with false. cbv iota. simpl for_fold.
    rewrite bind_ret_r. apply group_effect_of_body.
    intros a st'. apply one_row_body_effect.
  - change (1 <? length (q0 :: q1 :: q)) with true. cbv iota.
    unfold grouped_question. apply group_effect_of_body.
    intros a st'. by apply grouped_body_effect.
Qed.

End GroupEffects.

(** * The counter of merged likert questions *)

Section Counter.

Implicit Types (p : Project) (st : State).

Lemma str_inj a b : Py.str a = Py.str b -> a = b.
Proof.
  unfold Py.str. intros H. apply DecimalZ.to_int_inj.
  assert (Hnn : forall z, Z.to_int z <> Decimal.Pos Decimal.Nil
                          /\ Z.to_int z <> Decimal.Neg Decimal.Nil).
  { intros [|x|x]; simpl; split; try discriminate;
      intros [= Hx]; by apply DecimalPos.Unsigned.to_uint_nonnil in Hx. }
  destruct (Hnn a) as [Ha1 Ha2], (Hnn b) as [Hb1 Hb2].
  pose proof (NilZero.isi _ Ha1 Ha2) as Ia.
  pose proof (NilZero.isi _ Hb1 Hb2) as Ib.
  rewrite H in Ia. congruence.
Qed.

Lemma likert_names_S k :
  likert_names (S k) = likert_names k ++ ["likert" +:+ Py.str (Z.of_nat k)].
Proof. unfold likert_names. by rewrite seq_S, map_app. Qed.

Lemma likert_names_NoDup k : NoDup (likert_names k).
Proof.
  unfold likert_names.
  assert (Hinj : Inj (=) (=) (fun j : nat => "likert" +:+ Py.str (Z.of_nat j))).
  { intros i j H. simpl in H. injection H as H. apply str_inj in H. lia. }
  apply (NoDup_fmap_2 _), NoDup_seq.
Qed.

Lemma multi_likert_names_app l1 l2 :
  multi_likert_names (l1 ++ l2) = multi_likert_names l1 ++ multi_likert_names l2.
Proof. apply omap_app. Qed.

Lemma multi_likert_names_cons w l :
  multi_likert_names (w :: l)
  = match writer w with
    | by_setup_question type_question _ =>
        if String.eqb type_question "multi_likert"
        then match fields w !! "name" with
             | Some name => name :: multi_likert_names l
             | None => multi_likert_names l
             end
        else multi_likert_names l
    | _ => multi_likert_names l
    end.
Proof.
  unfold multi_likert_names. simpl.
  destruct (writer w) as [| t r | |]; try done. by destruct (String.eqb t _).
Qed.

Lemma multi_likert_names_body q rest :
  Forall (fun w => body_tag q (writer w)) rest -> multi_likert_names rest = [].
Proof.
  induction 1 as [|w rest Hw _ IH]; [done|].
  rewrite multi_likert_names_cons, IH.
  destruct (writer w) as [| t r | |]; simpl in *; try done.
  destruct Hw as [_ ->]. done.
Qed.

Lemma multi_likert_names_header hdr n :
  hdr = [] \/ (exists w, hdr = [w] /\ writer w = by_check_adding_section n) ->
  multi_likert_names hdr = [].
Proof.
  intros [->|(w & -> & Hw)]; [done|].
  by rewrite multi_likert_names_cons, Hw.
Qed.

(** One turn of the loop keeps the names in step with the counter. *)
Lemma counter_step p txt_lang index_lang lang q nbr_section st base new k :
  (forall n l, shuffle p n l ≡ₚ l) ->
  (forall r r', r ∈ q -> r' ∈ q ->
     Py.lower (answer_format r) = Py.lower (answer_format r')) ->
  outfile st = base ++ new ->
  multi_likert_names new = likert_names k ->
  code_to_multiple_question st = Z.of_nat k ->
  let r := group_questions p txt_lang index_lang lang q nbr_section st in
  exists new' k',
    outfile r.2 = base ++ new' /\
    multi_likert_names new' = likert_names k' /\
    code_to_multiple_question r.2 = Z.of_nat k' /\
    k <= k' /\ k' <= k + (if compound_likert q then 1 else 0) /\
    (forall a, r.1 = Return a -> k' = k + (if compound_likert q then 1 else 0)).
Proof.
  intros Hperm Hfmt Hout Hnames Hk. cbv zeta.
  destruct (group_questions_effect p txt_lang index_lang lang q nbr_section st Hperm Hfmt)
    as (hdr & ml & rest & Ho & Hrest & Hhdr & Hml).
  assert (Hh : multi_likert_names hdr = []).
  { destruct q as [|q0 q'].
    - destruct Hhdr as [-> _]. done.
    - destruct Hhdr as [_ [(_ & ->)|[(_ & w & -> & Hw)|(_ & -> & _)]]]; try done.
      by rewrite multi_likert_names_cons, Hw. }
  pose proof (multi_likert_names_body q rest Hrest) as Hr.
  exists (new ++ hdr ++ ml ++ rest).
  rewrite Ho, Hout, <- app_assoc.
  rewrite !multi_likert_names_app, Hh, Hr, Hnames, app_nil_r. simpl.
  destruct Hml as [(-> & Hc & Hraise)|(Hcl & w & q0 & -> & Hw & _ & Hname & Hc)].
  - exists k. rewrite app_nil_r.
    split; [done|]. split; [done|]. split; [congruence|]. split; [lia|].
    split; [destruct (compound_likert q); lia|].
    intros a Ha. destruct (compound_likert q); [|lia].
    destruct Hraise as [e He]; [done|]. congruence.
  - exists (S k). rewrite Hcl.
    split; [done|]. split; [|split; [|split; [lia|split; [lia|intros; lia]]]].
    + rewrite likert_names_S. f_equal.
      rewrite multi_likert_names_cons, Hw. simpl. rewrite Hname, Hk. done.
    + rewrite Hc, Hk. lia.
Qed.

Lemma counter_loop p txt_lang index_lang lang groups :
  (forall n l, shuffle p n l ≡ₚ l) ->
  forall nbr_section st base new k,
  Forall (fun q => forall r r', r ∈ q -> r' ∈ q ->
     Py.lower (answer_format r) = Py.lower (answer_format r')) groups ->
  outfile st = base ++ new ->
  multi_likert_names new = likert_names k ->
  code_to_multiple_question st = Z.of_nat k ->
  let r := for_fold (group_questions p txt_lang index_lang lang) groups nbr_section st in
  exists new' k',
    outfile r.2 = base ++ new' /\
    multi_likert_names new' = likert_names k' /\
    code_to_multiple_question r.2 = Z.of_nat k' /\
    k' <= k + length (List.filter compound_likert groups) /\
    (forall a, r.1 = Return a -> k' = k + length (List.filter compound_likert groups)).
Proof.
  intros Hperm. induction groups as [|q groups IH];
    intros nbr_section st base new k Hfmt Hout Hnames Hk; cbv zeta.
  - simpl. exists new, k. repeat split; try done; lia.
  - apply Forall_cons in Hfmt as [Hq Hfmt]. simpl for_fold. rewrite bind_run.
    destruct (counter_step p txt_lang index_lang lang q nbr_section st base new k
                Hperm Hq Hout Hnames Hk) as (new1 & k1 & Ho1 & Hn1 & Hc1 & Hle & Hle' & Hret).
    destruct (group_questions p txt_lang index_lang lang q nbr_section st) as [[a|e] st1];
      simpl in *.
    + destruct (IH a st1 base new1 k1 Hfmt Ho1 Hn1 Hc1) as (new2 & k2 & ? & ? & ? & ? & Hret2).
      exists new2, k2. specialize (Hret a eq_refl).
      destruct (compound_likert q); simpl; repeat split; try done; try lia.
      all: intros a' Ha'; specialize (Hret2 a' Ha'); lia.
    + exists new1, k1. destruct (compound_likert q); simpl; repeat split; try done; lia.
Qed.

(** A pass is the loop over the groups, run from the section index -1
    with the counter at 0. *)
Lemma language_pass_run p index_lang lang st :
  language_pass p index_lang lang st
  = let r := for_fold (group_questions p (get_txt_lang lang index_lang) index_lang lang)
               (group_likert (survey_file p)) (-1)%Z
               (set_code_to_multiple_question 0 st).2 in
    (match r.1 with Return _ => Return tt | Raise e => Raise e end, r.2).
Proof.
  unfold language_pass. rewrite bind_run.
  change (check_adding_section p 0 (-1) lang st) with (Return (-1)%Z, st).
  cbv iota beta zeta. unfold mbind, M_bind, set_code_to_multiple_question, modify.
  cbv iota beta. simpl snd.
  by destruct (for_fold _ _ _ _) as [[a|e] st1].
Qed.

(** C7. In a pass over one language, whatever the counter was before:
    the questions that head merged likert groups are named [likert0],
    [likert1], ... in the order they are written, one for each such group
    reached, the counter ends at their number, and no two of the names are
    equal.  When the pass returns, their number is that of the groups of
    several likert rows. *)
Theorem multi_question_counter p index_lang lang st :
  (forall n l, shuffle p n l ≡ₚ l) ->
  let r := language_pass p index_lang lang st in
  let merged := List.filter compound_likert (group_likert (survey_file p)) in
  exists k,
    k <= length merged /\
    (r.1 = Return tt -> k = length merged) /\
    code_to_multiple_question r.2 = Z.of_nat k /\
    multi_likert_names (written_since st r.2) = likert_names k /\
    NoDup (multi_likert_names (written_since st r.2)).
Proof.
  intros Hperm. cbv zeta. rewrite language_pass_run. cbv zeta.
  set (st0 := (set_code_to_multiple_question 0 st).2).
  destruct (counter_loop p (get_txt_lang lang index_lang) index_lang lang
              (group_likert (survey_file p)) Hperm (-1)%Z st0 (outfile st) [] 0)
    as (new & k & Ho & Hn & Hc & Hle & Hret).
  { apply Forall_forall. intros g Hg r r'.
    by apply (group_likert_one_format (survey_file p)). }
  { by rewrite app_nil_r. }
  { done. }
  { done. }
  exists k. simpl in *. unfold written_since.
  rewrite Ho, drop_app_length, Hn.
  split; [done|]. split; [|split; [done|split; [done|apply likert_names_NoDup]]].
  destruct (for_fold _ _ _ st0) as [[a|e] st1]; simpl; [|done].
  intros _. by apply (Hret a).
Qed.

End Counter.

(** * Section headers *)

Section Sections.

Implicit Types (p : Project) (st : State) (new ext : list written).








End Sections.

(** * The answer rows *)

Section Answers.

Implicit Types (p : Project) (st : State) (m : gmap string string).

Lemma split_from_nonempty sep s : forall skip acc, Py.split_from sep skip acc s <> [].
Proof.
  induction s as [|c s IH]; intros skip acc; simpl; [done|].
  destruct skip; [|apply IH].
  match goal with
  | |- (if ?b then _ else _) <> _ => destruct b; [discriminate | apply IH]
  end.
Qed.

Lemma split_first sep s : exists t, Py.split sep s !! 0 = Some t.
Proof.
  unfold Py.split. pose proof (split_from_nonempty sep s 0 EmptyString) as H.
  destruct (Py.split_from sep 0 EmptyString s) as [|t l]; [done|]. by exists t.
Qed.

(** The handler of [IndexError] never fails in its turn. *)
Lemma answer_text_run text_answer index_lang st :
  answer_text text_answer index_lang st
  = (Return (Py.strip_quote
       (default (default EmptyString (Py.split ";" text_answer !! 0))
          (Py.split ";" text_answer !! index_lang))), st).
Proof.
  unfold answer_text. destruct (split_first ";" text_answer) as [t Ht].
  rewrite Ht. by destruct (Py.split ";" text_answer !! index_lang).
Qed.

Lemma answer_fields_again m name text lang name' text' lang' :
  <["language" := lang']> (<["text" := text']> (<["name" := name']>
    (<["language" := lang]> (<["text" := text]> (<["name" := name]> m)))))
  = <["language" := lang']> (<["text" := text']> (<["name" := name']> m)).
Proof.
  apply map_eq. intros k. rewrite !lookup_insert. by repeat case_decide.
Qed.

Lemma ret_bind_run {A B} (a : A) (k : A -> M B) st : (mret a ≫= k) st = k a st.
Proof. reflexivity. Qed.

(** One turn of the loop of [setup_answer]. *)
Lemma setup_answer_turn type_question answer_row index_lang lang text_answer n st :
  let fields' :=
    <["language" := lang]>
      (<["text" := Py.strip_quote
           (default (default EmptyString (Py.split ";" text_answer !! 0))
              (Py.split ";" text_answer !! index_lang))]>
         (<["name" := Py.str n]> (main_config st answer_row))) in
  exists st',
    (set_item answer_row "name" (Py.str n);;
     text ← answer_text text_answer index_lang;
     set_item answer_row "text" text;;
     set_item answer_row "language" lang;;
     _write_row (by_setup_answer type_question) answer_row;;
     mret (n + 1)%Z) st = (Return (n + 1)%Z, st') /\
    outfile st' = outfile st ++ [{| writer := by_setup_answer type_question;
                                    fields := fields' |}] /\
    main_config st' answer_row = fields'.
Proof.
  cbv zeta. unfold mbind, M_bind. simpl. rewrite answer_text_run. simpl.
  eexists. split; [reflexivity|]. simpl. rewrite !decide_True by done. done.
Qed.

(** The loop of [setup_answer] from the counter [n] on. *)
Lemma setup_answer_loop type_question answer_row index_lang lang lines :
  answer_template type_question = Some answer_row ->
  forall n st,
  let r := for_fold (fun text_answer n =>
    match answer_template type_question with
    | None => raise (UnboundLocalError "answer_row")
    | Some answer_row =>
        set_item answer_row "name" (Py.str n);;
        text ← answer_text text_answer index_lang;
        set_item answer_row "text" text;;
        set_item answer_row "language" lang;;
        _write_row (by_setup_answer type_question) answer_row;;
        mret (n + 1)%Z
    end) lines n st in
  (exists n', r.1 = Return n') /\
  outfile r.2 = outfile st ++
    imap (fun i text_answer =>
      {| writer := by_setup_answer type_question;
         fields :=
           <["language" := lang]>
             (<["text" := Py.strip_quote
                  (default (default EmptyString (Py.split ";" text_answer !! 0))
                     (Py.split ";" text_answer !! index_lang))]>
                (<["name" := Py.str (n + Z.of_nat i)]> (main_config st answer_row))) |})
      lines.
Proof.
  intros Hty. cbv zeta. rewrite Hty.
  induction lines as [|text_answer lines IH]; intros n st.
  - simpl. split; [eauto|]. by rewrite app_nil_r.
  - simpl for_fold. rewrite bind_run.
    destruct (setup_answer_turn type_question answer_row index_lang lang text_answer n st)
      as (st' & -> & Hout & Hcfg).
    destruct (IH (n + 1)%Z st') as [Hret Ho]. split; [done|].
    rewrite Ho, Hout, <- app_assoc. f_equal. simpl. f_equal.
    + by rewrite Z.add_0_r.
    + apply imap_ext. intros i x _. simpl. f_equal.
      rewrite Hcfg, answer_fields_again.
      by replace (n + 1 + Z.of_nat i)%Z with (n + Z.of_nat (S i))%Z by lia.
Qed.

(** The rows of [setup_answer] in the words of the program: one for each
    line that [get_answer] returns, which is each line of the file less
    its last character. *)
Lemma setup_answer_rows p type_question row index_lang lang st lines answer_row :
  listAnswers p (answer_file row) = Some lines ->
  answer_template type_question = Some answer_row ->
  let r := setup_answer p type_question row index_lang lang st in
  r.1 = Return tt /\
  written_since st r.2 =
    imap (fun i text_answer =>
      let segments := Py.split ";" text_answer in
      {| writer := by_setup_answer type_question;
         fields :=
           <["language" := lang]>
             (<["text" := Py.strip_quote
                  (default (default EmptyString (segments !! 0))
                     (segments !! index_lang))]>
                (<["name" := Py.str (Z.of_nat i + 1)]> (main_config st answer_row))) |})
      (Py.but_last <$> lines).
Proof.
  intros Hlines Hty. cbv zeta. unfold setup_answer, get_answer, written_since.
  rewrite Hlines, ret_bind_run, bind_run.
  destruct (setup_answer_loop type_question answer_row index_lang lang
              (map Py.but_last lines) Hty 1%Z st) as [[n' Hret] Hout].
  destruct (for_fold _ _ _ st) as [o st'] eqn:Hrun. simpl in *. subst o. simpl.
  split; [done|]. rewrite Hout, drop_app_length.
  apply imap_ext. intros i x _. simpl.
  by replace (1 + Z.of_nat i)%Z with (Z.of_nat i + 1)%Z by lia.
Qed.

Lemma append_cons c (s1 s2 : string) : String c s1 +:+ s2 = String c (s1 +:+ s2).
Proof. reflexivity. Qed.

Lemma append_empty_l (s : string) : EmptyString +:+ s = s.
Proof. reflexivity. Qed.

Lemma append_empty_r (s : string) : s +:+ EmptyString = s.
Proof. induction s as [|c s IH]; [done|]. by rewrite append_cons, IH. Qed.

Lemma append_assoc (s1 s2 s3 : string) : (s1 +:+ s2) +:+ s3 = s1 +:+ s2 +:+ s3.
Proof. induction s1 as [|c s1 IH]; [done|]. by rewrite !append_cons, IH. Qed.

Lemma list_ascii_append (s1 s2 : string) :
  list_ascii_of_string (s1 +:+ s2) = list_ascii_of_string s1 ++ list_ascii_of_string s2.
Proof. induction s1 as [|c s1 IH]; [done|]. rewrite append_cons. simpl. by rewrite IH. Qed.

(** [get_answer] gives back a line that ends with one more character. *)
Lemma but_last_append (s : string) c : Py.but_last (s +:+ String c EmptyString) = s.
Proof.
  induction s as [|a s IH]; [done|]. rewrite append_cons. simpl. rewrite IH.
  destruct s; [done|]. by rewrite append_cons.
Qed.

Lemma concat_cons sep x (l : list string) :
  l <> [] -> String.concat sep (x :: l) = x +:+ sep +:+ String.concat sep l.
Proof. by destruct l. Qed.

Lemma split_from_cons sep acc a s :
  Py.split_from sep 0 acc (String a s)
  = if String.prefix sep (String a s)
    then acc :: Py.split_from sep (String.length sep - 1) EmptyString s
    else Py.split_from sep 0 (acc +:+ String a EmptyString) s.
Proof. reflexivity. Qed.

Lemma prefix_semicolon a s :
  String.prefix ";" (String a s) = if ascii_dec ";" a then true else false.
Proof. destruct s; reflexivity. Qed.

(** Cutting at the semicolons and putting the semicolons back gives the
    line. *)
Lemma split_semicolon_concat s : forall acc,
  String.concat ";" (Py.split_from ";" 0 acc s) = acc +:+ s.
Proof.
  induction s as [|a s IH]; intros acc.
  - simpl. by rewrite append_empty_r.
  - rewrite split_from_cons, prefix_semicolon.
    destruct (ascii_dec ";" a) as [Ha|Ha].
    + subst a. change (String.length ";" - 1) with 0.
      rewrite concat_cons by apply split_from_nonempty.
      by rewrite IH.
    + rewrite IH, append_assoc. reflexivity.
Qed.

Lemma split_semicolon_segments s : forall acc,
  ~ In ";"%char (list_ascii_of_string acc) ->
  Forall (fun t => ~ In ";"%char (list_ascii_of_string t)) (Py.split_from ";" 0 acc s).
Proof.
  induction s as [|a s IH]; intros acc Hacc.
  - simpl. by repeat constructor.
  - rewrite split_from_cons, prefix_semicolon.
    destruct (ascii_dec ";" a) as [Ha|Ha].
    + change (String.length ";" - 1) with 0.
      constructor; [done|]. apply IH. by intros [].
    + apply IH. rewrite list_ascii_append. simpl.
      intros [H|[H|[]]]%in_app_or; [done | by subst].
Qed.

Lemma lstrip_parts keep s :
  exists before,
    s = before +:+ Py.lstrip keep s /\
    Forall (fun c => keep c = true) (list_ascii_of_string before) /\
    (forall c rest, Py.lstrip keep s = String c rest -> keep c = false).
Proof.
  induction s as [|a s (before & Hs & Hb & Hfirst)].
  - exists EmptyString. split; [done|]. split; [constructor|]. by intros c rest.
  - simpl Py.lstrip. destruct (keep a) eqn:Ha.
    + exists (String a before). rewrite append_cons, <- Hs.
      split; [done|]. split; [by constructor | done].
    + exists EmptyString. split; [done|]. split; [constructor|].
      by intros c rest [= <- _].
Qed.

Lemma not_append_last (init : string) c : EmptyString <> init +:+ String c EmptyString.
Proof. by destruct init. Qed.

Lemma rstrip_parts keep s :
  exists after,
    s = Py.rstrip keep s +:+ after /\
    Forall (fun c => keep c = true) (list_ascii_of_string after) /\
    (forall c init, Py.rstrip keep s = init +:+ String c EmptyString -> keep c = false).
Proof.
  induction s as [|a s (after & Hs & Ha & Hlast)].
  - exists EmptyString. split; [done|]. split; [constructor|].
    intros c init H. by apply not_append_last in H.
  - simpl Py.rstrip. destruct (Py.rstrip keep s) as [|b r] eqn:Hr.
    + rewrite append_empty_l in Hs. subst s. destruct (keep a) eqn:Hka.
      * exists (String a after). rewrite append_empty_l.
        split; [done|]. split; [simpl; by constructor|].
        intros c init H. by apply not_append_last in H.
      * exists after. rewrite append_cons, append_empty_l.
        split; [done|]. split; [done|].
        intros c [|x init] H.
        -- rewrite append_empty_l in H. by injection H as <-.
        -- rewrite append_cons in H. injection H as _ H.
           by apply not_append_last in H.
    + exists after. rewrite append_cons. split; [by rewrite <- Hs|]. split; [done|].
      intros c [|x init] H.
      * rewrite append_empty_l in H. by injection H as _ H.
      * rewrite append_cons in H. injection H as _ H. by eapply Hlast.
Qed.

(** What [strip] leaves when it takes the double quotes off. *)
Lemma strip_quote_parts s :
  exists before after,
    s = before +:+ Py.strip_quote s +:+ after /\
    Forall (fun c => c = ascii_of_nat 34) (list_ascii_of_string before) /\
    Forall (fun c => c = ascii_of_nat 34) (list_ascii_of_string after) /\
    (forall rest, Py.strip_quote s <> String (ascii_of_nat 34) rest) /\
    (forall init, Py.strip_quote s <> init +:+ String (ascii_of_nat 34) EmptyString).
Proof.
  unfold Py.strip_quote. set (keep := fun c => Ascii.eqb c Py.quote).
  destruct (lstrip_parts keep s) as (before & Hs & Hb & Hfirst).
  destruct (rstrip_parts keep (Py.lstrip keep s)) as (after & Hl & Ha & Hlast).
  assert (Hq : forall c, keep c = true -> c = ascii_of_nat 34).
  { intros c Hc. by apply Ascii.eqb_eq in Hc. }
  exists before, after. split; [by rewrite <- Hl|].
  split; [eapply Forall_impl; [exact Hb | exact Hq]|].
  split; [eapply Forall_impl; [exact Ha | exact Hq]|]. split.
  - intros rest Hr. rewrite Hr, append_cons in Hl.
    specialize (Hfirst _ _ Hl). unfold keep in Hfirst.
    by rewrite Ascii.eqb_refl in Hfirst.
  - intros init Hr. specialize (Hlast _ _ Hr). unfold keep in Hlast.
    by rewrite Ascii.eqb_refl in Hlast.
Qed.

Lemma answer_text_of_line index_lang line :
  answer_text_of index_lang line
    (Py.strip_quote (default (default EmptyString (Py.split ";" line !! 0))
                       (Py.split ";" line !! index_lang))).
Proof.
  destruct (split_first ";" line) as [s0 H0]. rewrite H0. simpl.
  set (segments := Py.split ";" line) in *.
  set (segment := default s0 (segments !! index_lang)).
  destruct (strip_quote_parts segment) as (before & after & Hseg & Hb & Ha & Hfirst & Hlast).
  exists segments, segment, before, after.
  split; [apply (split_semicolon_concat line EmptyString)|].
  split; [apply split_semicolon_segments; by intros []|].
  split; [|done].
  subst segment. destruct (segments !! index_lang); simpl; auto.
Qed.

(** X3. When every line of the answer file is an option followed by its
    end of line, and the type is one that [setup_answer] knows, it returns
    and writes one row for each option, in the order of the file: the row
    of option number [i] (from 0) is the template with [name] set to
    [i + 1] in decimal, [language] to the language, and [text] to the
    segment of the option for the language, or the first segment when
    there is none, without the double quotes at its ends. *)
Theorem setup_answer_terminated_lines p type_question row index_lang lang st
    options answer_row :
  listAnswers p (answer_file row) = Some ((fun o => o +:+ line_feed) <$> options) ->
  answer_template type_question = Some answer_row ->
  let r := setup_answer p type_question row index_lang lang st in
  r.1 = Return tt /\
  exists texts,
    Forall2 (answer_text_of index_lang) options texts /\
    written_since st r.2 =
      imap (fun i text =>
        {| writer := by_setup_answer type_question;
           fields :=
             <["language" := lang]>
               (<["text" := text]>
                  (<["name" := NilZero.string_of_int (Z.to_int (Z.of_nat i + 1))]>
                     (main_config st answer_row))) |})
        texts.
Proof.
  intros Hlines Hty.
  destruct (setup_answer_rows p type_question row index_lang lang st _ answer_row
              Hlines Hty) as [Hret Hout].
  cbv zeta. split; [done|].
  exists ((fun o => Py.strip_quote (default (default EmptyString (Py.split ";" o !! 0))
                                      (Py.split ";" o !! index_lang))) <$> options).
  split.
  - apply Forall2_fmap_r, Forall_Forall2_diag, Forall_forall.
    intros o _. apply answer_text_of_line.
  - rewrite Hout, <- list_fmap_compose, !imap_fmap. apply imap_ext.
    intros i o _. simpl. unfold line_feed. by rewrite but_last_append.
Qed.

(** C9. An answer file whose last line has no end of line: the last
    character of that line is cut all the same, and the row of the option
    [Disagree] is written with the text [Disagre]. *)
Theorem setup_answer_cuts_unterminated_line :
  let row := Sample.row 1 "a1" "likert" EmptyString "agree" in
  let r := setup_answer Sample.unterminated "likert" row 0 "en" Sample.state in
  r.1 = Return tt /\
  (fun w => fields w !! "text") <$> written_since Sample.state r.2
  = [Some "Agree"; Some "Disagre"].
Proof. vm_compute. done. Qed.

End Answers.

(** * Rows that the loop body does not know, and conditions *)

Section Dispatch.

Implicit Types (p : Project) (st : State).

Lemma not_recognized answer_format :
  recognized answer_format = false ->
  String.eqb answer_format "one choice" = false /\
  String.eqb answer_format "ranking" = false /\
  String.eqb answer_format "multiple choices" = false /\
  String.eqb answer_format "freenumeric" = false /\
  String.eqb answer_format "freetext" = false /\
  String.eqb answer_format "likert" = false /\
  String.eqb answer_format "y/n/na" = false.
Proof.
  unfold recognized. intros H%bool_decide_eq_false.
  repeat split; apply String.eqb_neq; intros ->; apply H; set_solver.
Qed.

(** C2. A group of one row whose answer format, lower-cased, is none of
    the seven, with no condition and in the section tracked: the loop body
    returns, writes nothing and leaves the state as it was.  The row is
    passed over in silence; [setup_question], which raises on a type it
    does not know, is never called for it. *)
Theorem unrecognized_format_is_skipped p txt_lang index_lang lang row nbr_section st :
  recognized (Py.lower (answer_format row)) = false ->
  condition row = EmptyString ->
  (section row - 1)%Z = nbr_section ->
  group_questions p txt_lang index_lang lang [row] nbr_section st
  = (Return nbr_section, st).
Proof.
  intros (H1 & H2 & H3 & H4 & H5 & H6 & H7)%not_recognized Hcond Hsec.
  unfold group_questions, check_adding_section, setup_condition, one_row_question.
  simpl. rewrite Hcond, Hsec, Z.eqb_refl, H1, H2, H3, H4, H5, H6, H7. reflexivity.
Qed.

(** C3. On the condition [x in [1]], whose list has neither [OR] nor
    [AND], [setup_condition] raises [UnboundLocalError] for its local
    [logical_element], in any state; and a pass over a file with such a
    row stops there. *)
Theorem setup_condition_unbound_local :
  (forall st, setup_condition "x in [1]" st
              = (Raise (UnboundLocalError "logical_element"), st))
  /\ (language_pass (Sample.project Sample.bracket_without_connector) 0 "en"
        Sample.state).1
     = Raise (UnboundLocalError "logical_element").
Proof. split; [intros st|]; reflexivity. Qed.

End Dispatch.

(** * Which rows are merged *)

Section Merged.

Implicit Types (t : tracker) (q : Row) (g : list Row).

Lemma eq_opt_true a b : Py.eq_opt a b = true -> b = Some a.
Proof.
  destruct b as [b|]; simpl; [|done]. intros H. apply String.eqb_eq in H. by subst.
Qed.

Lemma merged_snoc_likert g q l :
  last g = Some l ->
  Py.lower (answer_format l) = "likert" ->
  Py.lower (answer_format q) = "likert" ->
  answer_file q = answer_file l ->
  mergeable g -> mergeable (g ++ [q]).
Proof.
  intros Hl Hfl Hfq Hfile Hm. right; left.
  assert (Hin : l ∈ g).
  { destruct g as [|x g'] using rev_ind; [done|]. rewrite last_snoc in Hl.
    simplify_eq. apply elem_of_app. right. by left. }
  destruct Hm as [Hlen|[[file Hg]|[stem Hg]]].
  - exists (answer_file l). intros x [Hx|Hx]%elem_of_app.
    + destruct g as [|y [|z g']]; simpl in *; [done| |lia].
      apply list_elem_of_singleton in Hx, Hin. by subst.
    + apply list_elem_of_singleton in Hx. by subst.
  - exists file. intros x [Hx|Hx]%elem_of_app; [by apply Hg|].
    apply list_elem_of_singleton in Hx. subst x.
    destruct (Hg l Hin) as [_ <-]. done.
  - destruct (Hg l Hin) as [Hyn _]. congruence.
Qed.

Lemma merged_snoc_yes_no g q l :
  last g = Some l ->
  Py.lower (answer_format l) = "y/n/na" ->
  Py.lower (answer_format q) = "y/n/na" ->
  current_code q = current_code l ->
  mergeable g -> mergeable (g ++ [q]).
Proof.
  intros Hl Hfl Hfq Hcode Hm. right; right.
  assert (Hin : l ∈ g).
  { destruct g as [|x g'] using rev_ind; [done|]. rewrite last_snoc in Hl.
    simplify_eq. apply elem_of_app. right. by left. }
  destruct Hm as [Hlen|[[file Hg]|[stem Hg]]].
  - exists (current_code l). intros x [Hx|Hx]%elem_of_app.
    + destruct g as [|y [|z g']]; simpl in *; [done| |lia].
      apply list_elem_of_singleton in Hx, Hin. by subst.
    + apply list_elem_of_singleton in Hx. by subst.
  - destruct (Hg l Hin) as [Hlk _]. congruence.
  - exists stem. intros x [Hx|Hx]%elem_of_app; [by apply Hg|].
    apply list_elem_of_singleton in Hx. subst x.
    destruct (Hg l Hin) as [_ <-]. done.
Qed.

Lemma group_step_merged t q :
  tracks_last t -> mergeable (group_survey_q t) ->
  Forall mergeable (group_step t q).1
  /\ tracks_last (group_step t q).2
  /\ mergeable (group_survey_q (group_step t q).2).
Proof.
  intros Ht Hm.
  assert (Hone : mergeable [q]) by (left; simpl; lia).
  unfold group_step, tracks_last in *.
  destruct (group_survey_q t) as [|g0 g] eqn:Hg.
  { change (0 <? length []) with false.
    repeat match goal with
           | |- context [if ?b then _ else _] => destruct b eqn:?
           end; simpl; by repeat split. }
  change (0 <? length (g0 :: g)) with true.
  destruct (last (g0 :: g)) as [l|] eqn:Hl; [|by apply last_None in Hl].
  destruct Ht as (Hpf & Hpfile & Hpcode).
  rewrite Hpf, Hpfile, Hpcode.
  repeat match goal with
         | |- context [if ?b then _ else _] => destruct b eqn:?
         end; cbn [fst snd group_survey_q previous_answer_format
                   previous_file_answer previous_code];
    rewrite ?last_snoc; (split; [by repeat (constructor; try done)|]); (split; [done|]);
    try exact Hone.
  - (* a likert row goes on *)
    apply (merged_snoc_likert (g0 :: g) q l); try done.
    + apply eq_opt_true in Heqb1. by simplify_eq.
    + apply andb_prop in Heqb as [Hf _]. by apply String.eqb_eq in Hf.
    + apply orb_prop in Heqb0 as [Hf|Hf]; [|done].
      apply eq_opt_true in Hf. by simplify_eq.
  - (* a y/n/na row goes on *)
    apply (merged_snoc_yes_no (g0 :: g) q l); try done.
    + apply eq_opt_true in Heqb2. by simplify_eq.
    + apply andb_prop in Heqb0 as [Hf _]. by apply String.eqb_eq in Hf.
    + apply orb_prop in Heqb1 as [Hf|Hf]; [|done].
      apply eq_opt_true in Hf. by simplify_eq.
Qed.

Lemma group_loop_merged indict : forall t,
  tracks_last t -> mergeable (group_survey_q t) -> Forall mergeable (group_loop t indict).
Proof.
  induction indict as [|q rest IH]; intros t Ht Hm; simpl.
  - by repeat (constructor; try done).
  - destruct (group_step_merged t q Ht Hm) as (Hy & Ht' & Hm').
    destruct (group_step t q) as [yielded t']; simpl in *.
    apply Forall_app. split; [done | by apply IH].
Qed.

(** X4. A group of several rows is made of likert rows that share their
    answer file, or of y/n/na rows whose codes share their stem: rows of
    any other answer format always come alone. *)
Theorem group_likert_merged_rows indict g :
  g ∈ group_likert indict -> 1 < length g -> likert_group g \/ yes_no_group g.
Proof.
  intros Hg Hlen.
  assert (H : Forall mergeable (group_likert indict)).
  { apply group_loop_merged; [done|]. left. simpl. lia. }
  rewrite Forall_forall in H. destruct (H g Hg) as [?|?]; [lia | done].
Qed.

End Merged.

(** * The static helpers *)

Section Static.

Implicit Types (d e element : gmap string string) (l m : list (gmap string string)).

Lemma replacement_name element m e :
  replacement element m = Return (Some e) -> e !! "name" = element !! "name".
Proof.
  induction m as [|e' m IH]; simpl; [done|].
  unfold item. destruct (element !! "name") as [n|] eqn:Hn; [|done].
  destruct (e' !! "name") as [n'|] eqn:Hn'; [|done].
  destruct (String.eqb n n') eqn:Heq; [|done].
  apply String.eqb_eq in Heq. intros [= <-]. congruence.
Qed.

Lemma replacement_returns element m :
  is_Some (element !! "name") -> Forall (fun e => is_Some (e !! "name")) m ->
  exists r, replacement element m = Return r.
Proof.
  intros [n Hn]. induction 1 as [|e m [n' Hn'] _ IH]; simpl; [eauto|].
  unfold item. rewrite Hn, Hn'. destruct (String.eqb n n'); eauto.
Qed.

Lemma replacement_same_name element element' m :
  element !! "name" = element' !! "name" ->
  replacement element m = replacement element' m.
Proof.
  intros Hn. induction m as [|e m IH]; simpl; [done|].
  unfold item. rewrite Hn. destruct (element' !! "name"); [|done].
  destruct (e !! "name"); [|done]. by rewrite IH.
Qed.

(** The first match of a name is its own first match. *)
Lemma replacement_again element m e :
  replacement element m = Return (Some e) -> replacement e m = Return (Some e).
Proof.
  intros H. pose proof (replacement_name _ _ _ H) as Hn.
  by rewrite (replacement_same_name e element m Hn).
Qed.

(** X5. When every dictionary has a name, [_to_modify] returns a list of
    the length of [original_list] that carries the same names at the same
    places: an entry is only ever put in the place of one of its name. *)
Theorem to_modify_keeps_names l m :
  Forall (fun e => is_Some (e !! "name")) l ->
  Forall (fun e => is_Some (e !! "name")) m ->
  exists return_list,
    _to_modify l m = Return return_list /\
    length return_list = length l /\
    (fun e => e !! "name") <$> return_list = (fun e => e !! "name") <$> l.
Proof.
  intros Hl Hm. induction Hl as [|element l Hn _ (rl & IH & Hlen & Hnames)]; simpl.
  - by exists [].
  - destruct (replacement_returns element m Hn Hm) as [r Hr]. rewrite Hr, IH.
    eexists. split; [done|]. rewrite !fmap_cons, Hnames. simpl length. rewrite Hlen.
    split; [done|]. f_equal.
    destruct r as [e|]; [|done]. by apply replacement_name in Hr.
Qed.

(** X6. Modifying twice by the same list is modifying once. *)
Theorem to_modify_twice l m return_list :
  _to_modify l m = Return return_list ->
  _to_modify return_list m = Return return_list.
Proof.
  revert return_list. induction l as [|element l IH]; intros rl; simpl.
  - by intros [= <-].
  - destruct (replacement element m) as [r|] eqn:Hr; [|done].
    destruct (_to_modify l m) as [rl'|] eqn:Hrl; [|done].
    intros [= <-]. simpl. rewrite (IH rl' eq_refl).
    destruct r as [e|]; simpl.
    + by rewrite (replacement_again _ _ _ Hr).
    + by rewrite Hr.
Qed.

Lemma list_insert_split {A} (i : Z) (x : A) (l : list A) :
  exists k1 k2 : list A, l = k1 ++ k2 /\ list_insert i x l = k1 ++ x :: k2.
Proof.
  unfold list_insert. eexists _, _. split; [|reflexivity]. by rewrite take_drop.
Qed.

Lemma to_add_permutation {A} (original_list : list A) (list_to_add : list (A * Z)) :
  _to_add original_list list_to_add ≡ₚ original_list ++ list_to_add.*1.
Proof.
  unfold _to_add. revert original_list.
  induction list_to_add as [|[x i] adds IH]; intros k; simpl.
  - by rewrite app_nil_r.
  - destruct (list_insert_split i x k) as (k1 & k2 & Hk & Hins).
    rewrite IH, Hins, Hk. rewrite <- !app_assoc. simpl.
    by rewrite <- !Permutation_middle.
Qed.

(** X7. [_to_add] puts every element to add into the list and loses
    none: the list returned is made of the elements of [original_list]
    and of those to add, and the elements of [original_list] keep their
    order in it. *)
Theorem to_add_keeps_original {A} (original_list : list A) (list_to_add : list (A * Z)) :
  _to_add original_list list_to_add ≡ₚ original_list ++ list_to_add.*1
  /\ original_list `sublist_of` _to_add original_list list_to_add.
Proof.
  split; [apply to_add_permutation|].
  unfold _to_add. revert original_list.
  induction list_to_add as [|[x i] adds IH]; intros k; simpl; [done|].
  destruct (list_insert_split i x k) as (k1 & k2 & Hk & Hins).
  etrans; [|apply IH]. rewrite Hins, Hk.
  apply sublist_app; [done|]. by apply sublist_cons.
Qed.

(** X8. The element added last, at an index inside the bounds of the
    list as it is by then, is at that index in the list returned. *)
Theorem to_add_last_index {A} (original_list : list A) (list_to_add : list (A * Z))
    (x : A) (i : nat) :
  i <= length original_list + length list_to_add ->
  _to_add original_list (list_to_add ++ [(x, Z.of_nat i)]) !! i = Some x.
Proof.
  intros Hi. unfold _to_add. rewrite fold_left_app. simpl.
  fold (_to_add original_list list_to_add).
  pose proof (to_add_permutation original_list list_to_add) as Hperm.
  apply Permutation_length in Hperm. rewrite length_app, length_fmap in Hperm.
  set (k := _to_add original_list list_to_add) in *.
  unfold list_insert.
  replace (Z.of_nat i <? 0)%Z with false by (symmetry; apply Z.ltb_ge; lia).
  rewrite Z.min_l by lia. rewrite Nat2Z.id.
  rewrite lookup_app_r by (rewrite length_take; lia).
  rewrite length_take. by replace (i - i `min` length k) with 0 by lia.
Qed.



(** X10. When no element is named [surveyls_<type>text], the list comes
    back as it was and the message is lost without an error. *)
Theorem add_text_message_no_place l message type_message :
  Forall (fun e => exists name, e !! "name" = Some name /\
                   name <> "surveyls_" +:+ type_message +:+ "text") l ->
  _add_text_message l message type_message = Return l.
Proof.
  unfold _add_text_message. induction 1 as [|e l (name & Hn & Hne) _ IH]; simpl; [done|].
  unfold item. rewrite Hn. apply String.eqb_neq in Hne. by rewrite Hne, IH.
Qed.

(** The inner loop of [_to_modify] finds the first entry of the name. *)
Lemma replacement_find element m :
  is_Some (element !! "name") -> Forall (fun e => is_Some (e !! "name")) m ->
  replacement element m
  = Return (snd <$> list_find (fun e => e !! "name" = element !! "name") m).
Proof.
  intros [n Hn]. induction 1 as [|e m [n' Hn'] _ IH]; simpl; [done|].
  unfold item. rewrite Hn, Hn'. rewrite Hn in IH. case_decide as Hd.
  - simplify_eq. by rewrite String.eqb_refl.
  - destruct (String.eqb n n') eqn:Heq.
    + apply String.eqb_eq in Heq. congruence.
    + rewrite IH. by destruct (list_find _ m) as [[i e']|].
Qed.

(** X11. When every dictionary has a name, each element of the list that
    [_to_modify] returns is the first entry of [modified_list] that has
    the name of the element of [original_list] at its place, or that
    element itself when no entry has its name. *)
Theorem to_modify_first_entry l m :
  Forall (fun e => is_Some (e !! "name")) l ->
  Forall (fun e => is_Some (e !! "name")) m ->
  exists return_list,
    _to_modify l m = Return return_list /\
    Forall2 (fun element r =>
      r = from_option snd element
            (list_find (fun e => e !! "name" = element !! "name") m))
      l return_list.
Proof.
  intros Hl Hm. induction Hl as [|element l Hn _ (rl & IH & Hrl)]; simpl.
  - exists []. by split.
  - rewrite (replacement_find element m Hn Hm), IH. eexists. split; [done|].
    constructor; [|done]. by destruct (list_find _ m) as [[i e]|].
Qed.

End Static.

(** * The rows of one method *)

Section Rows.

Implicit Types (p : Project) (st : State).

(** Computes a method made of assignments and writes on a state that
    stays a variable. *)
Ltac run_method := unfold mbind, M_bind; simpl.

(** X12. For a type other than [multi_likert] and a row that has the text
    column, [setup_question] returns and writes one row: the template with
    [name] the code of the row, [text] its text in the language, the
    language, and [other] set to [Y] when the row has [Y] there and to [N]
    otherwise.  The counter stays as it is. *)
Theorem setup_question_row type_question question row txt_lang lang text st :
  question_template type_question = Some question ->
  String.eqb type_question "multi_likert" = false ->
  columns row !! txt_lang = Some text ->
  let r := setup_question type_question row txt_lang lang st in
  r.1 = Return tt /\
  written_since st r.2 =
    [{| writer := by_setup_question type_question row;
        fields :=
          <["other" := if String.eqb (other row) "Y" then "Y" else "N"]>
            (<["language" := lang]>
               (<["text" := text]>
                  (<["name" := code row]> (main_config st question)))) |}] /\
  code_to_multiple_question r.2 = code_to_multiple_question st.
Proof.
  intros Hq Hty Hcol. cbv zeta. unfold setup_question, written_since, column.
  rewrite Hq, Hty, Hcol. run_method.
  destruct (String.eqb (other row) "Y"); simpl;
    rewrite drop_app_length, !decide_True by done; done.
Qed.

(** X13. When the row has no column for the language, [setup_question]
    raises [KeyError] on the key and writes nothing; the name of the
    template has been assigned by then. *)
Theorem setup_question_missing_column type_question question row txt_lang lang st :
  question_template type_question = Some question ->
  String.eqb type_question "multi_likert" = false ->
  columns row !! txt_lang = None ->
  let r := setup_question type_question row txt_lang lang st in
  r.1 = Raise (KeyError txt_lang) /\
  outfile r.2 = outfile st /\
  main_config r.2 question !! "name" = Some (code row).
Proof.
  intros Hq Hty Hcol. cbv zeta. unfold setup_question, column.
  rewrite Hq, Hty, Hcol. run_method.
  rewrite decide_True by done. by rewrite lookup_insert_eq.
Qed.

(** X14. On a type that is none of its eight, [setup_question] prints the
    type, raises, and writes nothing. *)
Theorem setup_question_unknown_type type_question row txt_lang lang st :
  question_template type_question = None ->
  let r := setup_question type_question row txt_lang lang st in
  r.1 = Raise RuntimeError /\
  outfile r.2 = outfile st /\
  stdout r.2 = stdout st ++ [type_question].
Proof. intros Hq. cbv zeta. unfold setup_question. rewrite Hq. by run_method. Qed.

Lemma ranking_fields_again (m : gmap string string) name text lang name' text' lang' :
  <["relevance" := "1"]> (<["language" := lang']> (<["text" := text']> (<["name" := name']>
    (<["relevance" := "1"]> (<["language" := lang]> (<["text" := text]>
       (<["name" := name]> m)))))))
  = <["relevance" := "1"]> (<["language" := lang']> (<["text" := text']>
      (<["name" := name']> m))).
Proof. apply map_eq. intros k. rewrite !lookup_insert. by repeat case_decide. Qed.

(** One turn of the loop over the ranks. *)
Lemma ranking_turn lang (i : Z) st :
  let fields' :=
    <["relevance" := "1"]>
      (<["language" := lang]>
         (<["text" := "Rank" +:+ Py.str i]>
            (<["name" := Py.str i]> (main_config st subquestion)))) in
  exists st',
    (set_item subquestion "name" (Py.str i);;
     set_item subquestion "text" ("Rank" +:+ Py.str i);;
     set_item subquestion "language" lang;;
     set_item subquestion "relevance" "1";;
     _write_row (by_setup_subquestion "ranking") subquestion) st = (Return tt, st') /\
    outfile st' = outfile st ++ [{| writer := by_setup_subquestion "ranking";
                                    fields := fields' |}] /\
    main_config st' subquestion = fields'.
Proof.
  cbv zeta. unfold mbind, M_bind, set_item, _write_row, modify. cbv iota beta.
  eexists. split; [reflexivity|]. cbn [outfile main_config].
  rewrite !decide_True by done. done.
Qed.

Lemma ranking_loop lang (l : list Z) : forall st,
  let r := for_each (fun i =>
    set_item subquestion "name" (Py.str i);;
    set_item subquestion "text" ("Rank" +:+ Py.str i);;
    set_item subquestion "language" lang;;
    set_item subquestion "relevance" "1";;
    _write_row (by_setup_subquestion "ranking") subquestion) l st in
  let row base i :=
    {| writer := by_setup_subquestion "ranking";
       fields :=
         <["relevance" := "1"]>
           (<["language" := lang]>
              (<["text" := "Rank" +:+ Py.str i]> (<["name" := Py.str i]> base))) |} in
  r.1 = Return tt /\
  outfile r.2 = outfile st ++ map (row (main_config st subquestion)) l /\
  main_config r.2 subquestion
  = from_option (fun i => fields (row (main_config st subquestion) i))
      (main_config st subquestion) (last l).
Proof.
  cbv zeta. induction l as [|i l IH]; intros st.
  - simpl. by rewrite app_nil_r.
  - simpl for_each. rewrite bind_run.
    destruct (ranking_turn lang i st) as (st' & -> & Hout & Hcfg).
    destruct (IH st') as (Hret & Ho & Hm). split; [done|].
    rewrite Ho, Hout, Hcfg, <- app_assoc. split.
    + simpl. do 2 f_equal. apply map_ext. intros j. f_equal.
      apply ranking_fields_again.
    + rewrite Hm. destruct l as [|j l']; [by rewrite Hcfg|].
      rewrite last_cons_cons.
      destruct (last (j :: l')) as [k|] eqn:Hlast; cbn [from_option fields].
      * rewrite Hcfg. apply ranking_fields_again.
      * by apply last_None in Hlast.
Qed.

(** What [setup_subquestion] does for a ranking. *)
Lemma ranking_run lang list_likert txt_lang st :
  exists st',
    setup_subquestion "ranking" lang list_likert txt_lang st = (Return tt, st') /\
    outfile st' = outfile st ++
      map (fun i =>
        {| writer := by_setup_subquestion "ranking";
           fields :=
             <["relevance" := "1"]>
               (<["language" := lang]>
                  (<["text" := "Rank" +:+ Py.str i]>
                     (<["name" := Py.str i]> (main_config st subquestion)))) |})
        (map Z.of_nat (seq 1 8)) /\
    main_config st' subquestion !! "text" = Some "Rank8".
Proof.
  unfold setup_subquestion.
  change (String.eqb "ranking" "multi_likert") with false.
  change (String.eqb "ranking" "ranking") with true.
  change (String.eqb "ranking" "likert") with false.
  cbv iota. rewrite ret_bind_run, bind_run.
  destruct (ranking_loop lang (map Z.of_nat (seq 1 8)) st) as (Hret & Hout & Hm).
  destruct (for_each _ _ st) as [o st'] eqn:Hrun. simpl in Hret, Hout, Hm. subst o.
  cbv iota beta. change ((mret tt : M unit) st') with (Return tt, st').
  exists st'. split; [done|]. split; [done|].
  rewrite Hm. change (last (map Z.of_nat (seq 1 8))) with (Some 8%Z).
  cbn [from_option fields]. by rewrite !lookup_insert_ne, lookup_insert_eq by done.
Qed.

(** What [setup_subquestion] does for a likert question standing alone. *)
Lemma likert_run lang list_likert txt_lang st :
  exists st',
    setup_subquestion "likert" lang list_likert txt_lang st = (Return tt, st') /\
    outfile st' = outfile st ++
      [{| writer := by_setup_subquestion "likert";
          fields :=
            <["language" := lang]>
              (<["relevance" := "1"]>
                 (<["name" := "SQ001"]> (main_config st subquestion))) |}].
Proof.
  unfold setup_subquestion.
  change (String.eqb "likert" "multi_likert") with false.
  change (String.eqb "likert" "ranking") with false.
  change (String.eqb "likert" "likert") with true.
  cbv iota. rewrite !ret_bind_run.
  unfold mbind, M_bind, set_item, _write_row, modify. cbv iota beta.
  eexists. split; [reflexivity|]. cbn [outfile main_config].
  by rewrite !decide_True by done.
Qed.

(** X15. [setup_subquestion] for a ranking returns and writes eight rows,
    named 1 to 8 with the texts Rank1 to Rank8, whatever the state and
    the other arguments; it leaves Rank8 as the text of the template of
    subquestions. *)
Theorem setup_subquestion_ranking lang list_likert txt_lang st :
  let r := setup_subquestion "ranking" lang list_likert txt_lang st in
  r.1 = Return tt /\
  written_since st r.2 =
    map (fun i =>
      {| writer := by_setup_subquestion "ranking";
         fields :=
           <["relevance" := "1"]>
             (<["language" := lang]>
                (<["text" := "Rank" +:+ NilZero.string_of_int (Z.to_int i)]>
                   (<["name" := NilZero.string_of_int (Z.to_int i)]>
                      (main_config st subquestion)))) |})
      [1; 2; 3; 4; 5; 6; 7; 8]%Z /\
  main_config r.2 subquestion !! "text" = Some "Rank8".
Proof.
  cbv zeta. unfold written_since.
  destruct (ranking_run lang list_likert txt_lang st) as (st' & -> & Hout & Htext).
  cbn [fst snd]. by rewrite Hout, drop_app_length.
Qed.

(** X16. The subquestion of a likert question standing alone is named
    SQ001, and its text is not assigned: the row is written with the text
    that the template of subquestions held, which all subquestions
    share. *)
Theorem setup_subquestion_likert_text lang list_likert txt_lang st :
  let r := setup_subquestion "likert" lang list_likert txt_lang st in
  r.1 = Return tt /\
  written_since st r.2 =
    [{| writer := by_setup_subquestion "likert";
        fields :=
          <["language" := lang]>
            (<["relevance" := "1"]>
               (<["name" := "SQ001"]> (main_config st subquestion))) |}] /\
  (forall w, written_since st r.2 = [w] ->
     fields w !! "text" = main_config st subquestion !! "text").
Proof.
  cbv zeta. unfold written_since.
  destruct (likert_run lang list_likert txt_lang st) as (st' & -> & Hout).
  cbn [fst snd]. rewrite Hout, drop_app_length.
  split; [done|]. split; [done|].
  intros w [= <-]. cbn [fields]. by rewrite !lookup_insert_ne by done.
Qed.

(** X17. After the subquestions of a ranking, the subquestion of a likert
    question standing alone is written with the text Rank8: the two share
    the template of subquestions, and the likert branch does not assign
    its text. *)
Theorem likert_subquestion_after_ranking lang lang' list_likert txt_lang
    list_likert' txt_lang' st :
  let r := (setup_subquestion "ranking" lang list_likert txt_lang;;
            setup_subquestion "likert" lang' list_likert' txt_lang') st in
  r.1 = Return tt /\
  exists w, last (outfile r.2) = Some w /\
    fields w !! "name" = Some "SQ001" /\
    fields w !! "language" = Some lang' /\
    fields w !! "text" = Some "Rank8".
Proof.
  cbv zeta. rewrite bind_run.
  destruct (ranking_run lang list_likert txt_lang st) as (st' & -> & _ & Htext).
  destruct (likert_run lang' list_likert' txt_lang' st') as (st'' & -> & Hout).
  cbn [fst snd]. split; [done|]. eexists. rewrite Hout, last_snoc.
  split; [done|]. cbn [fields].
  rewrite lookup_insert_ne, lookup_insert_ne, lookup_insert_eq by done.
  rewrite lookup_insert_eq.
  by rewrite !lookup_insert_ne by done.
Qed.

End Rows.

(** * Sections, conditions and answers: the edges *)

Section Edges.

Implicit Types (p : Project) (st : State).

(** X18. When the section of the row is not the one tracked and the
    project has a text for it, [check_adding_section] returns the new index
    and writes one row: the template of groups with [type/scale] set to G
    and the index, the language, and over them the keys of the text. *)
Theorem check_adding_section_header p row_section nbr_section lang txt st :
  (row_section - 1)%Z <> nbr_section ->
  sections_txt p (row_section - 1)%Z lang = Some txt ->
  let r := check_adding_section p row_section nbr_section lang st in
  r.1 = Return (row_section - 1)%Z /\
  written_since st r.2 =
    [{| writer := by_check_adding_section (row_section - 1);
        fields :=
          txt ∪ <["language" := lang]>
                  (<["type/scale" := "G" +:+ NilZero.string_of_int (Z.to_int (row_section - 1))]>
                     (main_config st group_format)) |}].
Proof.
  intros Hne Htxt. cbv zeta. unfold check_adding_section, written_since.
  apply Z.eqb_neq in Hne. rewrite Hne, Htxt. cbn [negb].
  unfold mbind, M_bind, set_item, update, _write_row, modify, mret, M_ret. cbv iota beta.
  cbn [fst snd outfile main_config].
  by rewrite drop_app_length, !decide_True by done.
Qed.

(** X19. When the project has no text for the new section,
    [check_adding_section] raises and writes nothing; the template of
    groups has taken the new [type/scale] and the language by then. *)
Theorem check_adding_section_no_text p row_section nbr_section lang st :
  (row_section - 1)%Z <> nbr_section ->
  sections_txt p (row_section - 1)%Z lang = None ->
  let r := check_adding_section p row_section nbr_section lang st in
  r.1 = Raise LookupError /\
  outfile r.2 = outfile st /\
  main_config r.2 group_format !! "language" = Some lang.
Proof.
  intros Hne Htxt. cbv zeta. unfold check_adding_section.
  apply Z.eqb_neq in Hne. rewrite Hne, Htxt. cbn [negb].
  unfold mbind, M_bind, set_item, raise, modify. cbv iota beta.
  cbn [fst snd outfile main_config].
  by rewrite !decide_True, lookup_insert_eq by done.
Qed.

(** X20. [setup_condition] never writes a row and never touches a
    template or the counter: a condition that it accepts is printed and
    has no other effect, and the only error it raises is the one of the
    local [logical_element]. *)
Theorem setup_condition_only_prints condition st :
  let r := setup_condition condition st in
  outfile r.2 = outfile st /\
  main_config r.2 = main_config st /\
  code_to_multiple_question r.2 = code_to_multiple_question st /\
  ((r.1 = Return tt /\
    stdout r.2 = stdout st ++ (if String.eqb condition EmptyString then [] else [condition]))
   \/ (r.1 = Raise (UnboundLocalError "logical_element") /\ stdout r.2 = stdout st)).
Proof.
  cbv zeta. unfold setup_condition.
  destruct (parse_condition condition) as [o|e] eqn:Hp.
  - destruct (String.eqb condition EmptyString); simpl;
      repeat split; left; by rewrite ?app_nil_r.
  - unfold parse_condition in Hp.
    destruct (Py.contains "[" condition); [|done].
    repeat match type of Hp with
           | context [if ?b then _ else _] => destruct b
           end; simplify_eq; simpl; repeat split; by right.
Qed.

Lemma prefix_bracket a s :
  String.prefix "[" (String a s) = if ascii_dec "[" a then true else false.
Proof. destruct s; reflexivity. Qed.

Lemma contains_bracket s :
  ~ In "["%char (list_ascii_of_string s) -> Py.contains "[" s = false.
Proof.
  induction s as [|a s IH]; intros Hin; [done|].
  cbn [Py.contains]. rewrite prefix_bracket.
  destruct (ascii_dec "[" a) as [Ha|_].
  - destruct Hin. simpl. by left.
  - apply IH. intros H. apply Hin. simpl. by right.
Qed.

(** X21. A condition without an opening bracket is always accepted. *)
Theorem setup_condition_without_bracket condition st :
  ~ In "["%char (list_ascii_of_string condition) ->
  (setup_condition condition st).1 = Return tt.
Proof.
  intros Hin. unfold setup_condition, parse_condition.
  rewrite (contains_bracket _ Hin).
  by destruct (negb (String.eqb condition EmptyString)).
Qed.

(** X22. When the answer file of the row cannot be opened, [setup_answer]
    raises on it and leaves the state as it is. *)
Theorem setup_answer_missing_file p type_question row index_lang lang st :
  listAnswers p (answer_file row) = None ->
  setup_answer p type_question row index_lang lang st
  = (Raise (FileNotFoundError (answer_file row)), st).
Proof. intros Hf. unfold setup_answer, get_answer. by rewrite Hf. Qed.

(** X23. On a type that is none of its four, [setup_answer] raises the
    error of the local [answer_row] at the first line of the answer file
    and leaves the state as it is; when the file has no line it returns. *)
Theorem setup_answer_unknown_type p type_question row index_lang lang st lines :
  listAnswers p (answer_file row) = Some lines ->
  answer_template type_question = None ->
  setup_answer p type_question row index_lang lang st
  = (match lines with
     | [] => Return tt
     | _ :: _ => Raise (UnboundLocalError "answer_row")
     end, st).
Proof.
  intros Hf Hty. unfold setup_answer, get_answer. rewrite Hf, Hty.
  by destruct lines.
Qed.

(** X24. A group of several y/n/na rows gives one question, that of its
    first row: when the section is the one tracked, the group is not to
    be shuffled and the first row has its text, nothing is written for
    the other rows. *)
Theorem yes_no_group_one_question p txt_lang index_lang lang q0 q1 rest
    nbr_section text st :
  Py.lower (answer_format q0) = "y/n/na" ->
  random q0 <> "Y" ->
  (section q0 - 1)%Z = nbr_section ->
  columns q0 !! txt_lang = Some text ->
  let r := group_questions p txt_lang index_lang lang (q0 :: q1 :: rest) nbr_section st in
  r.1 = Return nbr_section /\
  written_since st r.2 =
    [{| writer := by_setup_question "y/n/na" q0;
        fields :=
          <["other" := if String.eqb (other q0) "Y" then "Y" else "N"]>
            (<["language" := lang]>
               (<["text" := text]>
                  (<["name" := code q0]> (main_config st y_n_question)))) |}].
Proof.
  intros Hfmt Hrand Hsec Hcol. cbv zeta.
  unfold group_questions, written_since.
  change (1 <? length (q0 :: q1 :: rest)) with true. cbv iota.
  unfold grouped_question, check_adding_section.
  apply Z.eqb_eq in Hsec. rewrite Hsec. cbn [negb].
  apply String.eqb_neq in Hrand. rewrite Hrand, !ret_bind_run, Hfmt.
  change (String.eqb "y/n/na" "likert") with false.
  change (String.eqb "y/n/na" "y/n/na") with true. cbv iota.
  unfold setup_question, column.
  change (question_template "y/n/na") with (Some y_n_question).
  change (String.eqb "y/n/na" "multi_likert") with false. cbv iota.
  rewrite Hcol.
  unfold mbind, M_bind, set_item, _write_row, modify, mret, M_ret. cbv iota beta.
  destruct (String.eqb (other q0) "Y"); cbv iota beta; cbn [fst snd outfile main_config];
    by rewrite drop_app_length, !decide_True by done.
Qed.

(** The turn of [setup_subquestion] for one row of a merged likert
    group. *)
Lemma multi_likert_turn lang txt_lang (row : Row) text st :
  columns row !! txt_lang = Some text ->
  let fields' :=
    <["text" := text]>
      (<["name" := code row]>
         (<["language" := lang]>
            (<["relevance" := "1"]> (main_config st subquestion)))) in
  exists st',
    (set_item subquestion "relevance" "1";;
     set_item subquestion "language" lang;;
     set_item subquestion "name" (code row);;
     text ← column row txt_lang;
     set_item subquestion "text" text;;
     _write_row (by_setup_subquestion "multi_likert") subquestion) st = (Return tt, st') /\
    outfile st' = outfile st ++ [{| writer := by_setup_subquestion "multi_likert";
                                    fields := fields' |}] /\
    main_config st' subquestion = fields'.
Proof.
  intros Hcol. cbv zeta. unfold column. rewrite Hcol.
  unfold mbind, M_bind, set_item, _write_row, modify, mret, M_ret. cbv iota beta.
  eexists. split; [reflexivity|]. cbn [outfile main_config].
  rewrite !decide_True by done. done.
Qed.

Lemma multi_likert_fields_again (m : gmap string string) name text lang name' text' lang' :
  <["text" := text']> (<["name" := name']> (<["language" := lang']> (<["relevance" := "1"]>
    (<["text" := text]> (<["name" := name]> (<["language" := lang]>
       (<["relevance" := "1"]> m)))))))
  = <["text" := text']> (<["name" := name']> (<["language" := lang']>
      (<["relevance" := "1"]> m))).
Proof. apply map_eq. intros k. rewrite !lookup_insert. by repeat case_decide. Qed.

Lemma multi_likert_loop lang txt_lang (list_likert : list Row) texts :
  Forall2 (fun row text => columns row !! txt_lang = Some text) list_likert texts ->
  forall st,
  let r := for_each (fun row =>
    set_item subquestion "relevance" "1";;
    set_item subquestion "language" lang;;
    set_item subquestion "name" (code row);;
    text ← column row txt_lang;
    set_item subquestion "text" text;;
    _write_row (by_setup_subquestion "multi_likert") subquestion) list_likert st in
  r.1 = Return tt /\
  outfile r.2 = outfile st ++
    zip_with (fun (row : Row) text =>
      {| writer := by_setup_subquestion "multi_likert";
         fields :=
           <["text" := text]>
             (<["name" := code row]>
                (<["language" := lang]>
                   (<["relevance" := "1"]> (main_config st subquestion)))) |})
      list_likert texts.
Proof.
  cbv zeta. induction 1 as [|row text rows texts Hcol _ IH]; intros st.
  - simpl. by rewrite app_nil_r.
  - simpl for_each. rewrite bind_run.
    destruct (multi_likert_turn lang txt_lang row text st Hcol) as (st' & -> & Hout & Hcfg).
    destruct (IH st') as (Hret & Ho). split; [done|].
    rewrite Ho, Hout, Hcfg, <- app_assoc. simpl. do 2 f_equal.
    apply zip_with_ext; [|done|done]. intros row' text'. f_equal.
    apply multi_likert_fields_again.
Qed.

(** X25. For a merged likert group whose rows all have their text in the
    language, [setup_subquestion] returns and writes one row for each row
    of the group, in the order of the group: the template of subquestions
    with [name] the code of the row and [text] its text. *)
Theorem setup_subquestion_multi_likert lang list_likert txt_lang texts st :
  Forall2 (fun row text => columns row !! txt_lang = Some text) list_likert texts ->
  let r := setup_subquestion "multi_likert" lang list_likert txt_lang st in
  r.1 = Return tt /\
  written_since st r.2 =
    zip_with (fun (row : Row) text =>
      {| writer := by_setup_subquestion "multi_likert";
         fields :=
           <["text" := text]>
             (<["name" := code row]>
                (<["language" := lang]>
                   (<["relevance" := "1"]> (main_config st subquestion)))) |})
      list_likert texts.
Proof.
  intros Hcols. cbv zeta. unfold setup_subquestion, written_since.
  change (String.eqb "multi_likert" "multi_likert") with true.
  change (String.eqb "multi_likert" "ranking") with false.
  change (String.eqb "multi_likert" "likert") with false.
  cbv iota. rewrite bind_run.
  destruct (multi_likert_loop lang txt_lang list_likert texts Hcols st) as (Hret & Hout).
  destruct (for_each _ _ st) as [o st'] eqn:Hrun. simpl in Hret, Hout. subst o.
  cbv iota beta. rewrite ret_bind_run.
  change ((mret tt : M unit) st') with (Return tt, st').
  cbn [fst snd]. by rewrite Hout, drop_app_length.
Qed.

End Edges.

(** * The outfile over a whole run *)

Section Run.

Implicit Types (p : Project) (st : State).

#[global] Instance appends_preorder : PreOrder appends.
Proof.
  split.
  - intros st. exists []. by rewrite app_nil_r.
  - intros st1 st2 st3 [r1 H1] [r2 H2]. exists (r1 ++ r2).
    by rewrite H2, H1, <- app_assoc.
Qed.

Lemma appends_of_quiet {A} P (m : M A) : keeps (quiet P) m -> keeps appends m.
Proof. intros Hm st. destruct (Hm st) as (_ & rows & Ho & _). by exists rows. Qed.

Lemma appends_ret {A} (a : A) : keeps appends (mret a).
Proof. apply keeps_ret, _. Qed.

Lemma appends_raise {A} e : keeps appends (raise e : M A).
Proof. apply keeps_raise, _. Qed.

Lemma appends_bind {A B} (m : M A) (k : A -> M B) :
  keeps appends m -> (forall a, keeps appends (k a)) -> keeps appends (m ≫= k).
Proof. apply keeps_bind, _. Qed.

Lemma appends_for_each {A} (body : A -> M unit) l :
  (forall x, keeps appends (body x)) -> keeps appends (for_each body l).
Proof. apply keeps_for_each, _. Qed.

Lemma appends_for_fold {A V} (body : A -> V -> M V) l v :
  (forall x v', keeps appends (body x v')) -> keeps appends (for_fold body l v).
Proof. apply keeps_for_fold, _. Qed.

Lemma appends_check_adding_section p row_section nbr_section lang :
  keeps appends (check_adding_section p row_section nbr_section lang).
Proof.
  intros st.
  destruct (check_adding_section_effect p row_section nbr_section lang st)
    as [_ [[_ ->]|[(_ & _ & w & Ho & _)|(_ & _ & Ho)]]].
  - reflexivity.
  - by exists [w].
  - exists []. by rewrite app_nil_r.
Qed.

Lemma appends_setup_question type_question row txt_lang lang :
  keeps appends (setup_question type_question row txt_lang lang).
Proof.
  destruct (String.eqb type_question "multi_likert") eqn:Hty.
  - apply String.eqb_eq in Hty. subst type_question. intros st.
    destruct (setup_question_multi_likert row txt_lang lang st) as (_ & _ & w & Ho & _).
    by exists [w].
  - eapply appends_of_quiet. by apply quiet_setup_question.
Qed.

Lemma appends_set_code n : keeps appends (set_code_to_multiple_question n).
Proof. intros st. exists []. simpl. by rewrite app_nil_r. Qed.

Lemma appends_grouped_question p q nbr_section txt_lang index_lang lang :
  keeps appends (grouped_question p q nbr_section txt_lang index_lang lang).
Proof.
  unfold grouped_question. destruct q as [|q0 q]; [apply appends_raise|].
  apply appends_bind; [apply appends_check_adding_section|]. intros a.
  apply appends_bind.
  { destruct (String.eqb (random q0) "Y"); [|apply appends_ret].
    eapply appends_of_quiet, (quiet_random_shuffle (fun _ => True)). }
  intros [|q0' q']; [apply appends_raise|].
  apply appends_bind; [|intros _; apply appends_ret].
  destruct (String.eqb (Py.lower (answer_format q0')) "likert").
  - apply appends_bind; [apply appends_setup_question|]. intros _.
    apply appends_bind; [eapply appends_of_quiet, quiet_setup_subquestion|]. intros _.
    eapply appends_of_quiet, quiet_setup_answer.
  - destruct (String.eqb (Py.lower (answer_format q0')) "y/n/na");
      [apply appends_setup_question | apply appends_ret].
Qed.

Lemma appends_group_questions p txt_lang index_lang lang q nbr_section :
  keeps appends (group_questions p txt_lang index_lang lang q nbr_section).
Proof.
  unfold group_questions. destruct (1 <? length q).
  - apply appends_grouped_question.
  - apply appends_for_fold. intros row a.
    apply appends_bind; [apply appends_check_adding_section|]. intros a'.
    apply appends_bind;
      [eapply appends_of_quiet, (quiet_setup_condition (fun _ => True))|]. intros _.
    apply appends_bind; [eapply appends_of_quiet, quiet_one_row_question|]. intros _.
    apply appends_ret.
Qed.

Lemma appends_language_pass p index_lang lang :
  keeps appends (language_pass p index_lang lang).
Proof.
  unfold language_pass. cbv zeta.
  apply appends_bind; [apply appends_check_adding_section|]. intros a.
  apply appends_bind; [apply appends_set_code|]. intros _.
  apply appends_bind; [|intros _; apply appends_ret].
  apply appends_for_fold. intros q a'. apply appends_group_questions.
Qed.

(** X26. [create_survey_questions] only ever adds rows at the end of the
    outfile: whatever the project and the state, and whether it returns
    or raises, the rows that were there are still there, in their order
    and before the new ones. *)
Theorem create_survey_questions_appends p languages st :
  exists rows, outfile (create_survey_questions p languages st).2 = outfile st ++ rows.
Proof.
  assert (H : keeps appends (create_survey_questions p languages)).
  { unfold create_survey_questions. apply appends_for_each. intros [index_lang lang].
    apply appends_language_pass. }
  apply H.
Qed.

Lemma language_pass_empty p index_lang lang st :
  survey_file p = [] ->
  language_pass p index_lang lang st
  = (Return tt,
     {| main_config := main_config st; outfile := outfile st;
        code_to_multiple_question := 0; shuffles := shuffles st;
        stdout := stdout st |}).
Proof. intros Hs. unfold language_pass. rewrite Hs. reflexivity. Qed.

Lemma passes_empty p (l : list (nat * string)) : forall st,
  survey_file p = [] ->
  let r := for_each (fun il => language_pass p il.1 il.2) l st in
  r.1 = Return tt /\ outfile r.2 = outfile st /\ main_config r.2 = main_config st /\
  stdout r.2 = stdout st /\ shuffles r.2 = shuffles st.
Proof.
  cbv zeta. induction l as [|[i lang] l IH]; intros st Hs; simpl for_each.
  - done.
  - rewrite bind_run. cbn [fst snd]. rewrite (language_pass_empty p _ _ st Hs).
    cbv iota beta.
    exact (IH {| main_config := main_config st; outfile := outfile st;
                 code_to_multiple_question := 0; shuffles := shuffles st;
                 stdout := stdout st |} Hs).
Qed.

(** X27. On a survey file without a row, [create_survey_questions]
    returns and writes nothing, for any list of languages: the section
    that opens each pass is never written, for the index it is checked
    against is its own. *)
Theorem create_survey_questions_empty_survey p languages st :
  survey_file p = [] ->
  let r := create_survey_questions p languages st in
  r.1 = Return tt /\ outfile r.2 = outfile st /\ main_config r.2 = main_config st.
Proof.
  intros Hs. cbv zeta. unfold create_survey_questions.
  destruct (passes_empty p (imap pair languages) st Hs) as (? & ? & ? & _). done.
Qed.

End Run.

(** * The theorems at work on the small project *)

Lemma unrecognized_format_is_skipped_witness :
  group_questions (Sample.project [Sample.slider]) "question" 0 "en"
    [Sample.slider] 0 Sample.state
  = (Return 0%Z, Sample.state).
Proof.
  apply (unrecognized_format_is_skipped (Sample.project [Sample.slider])
           "question" 0 "en" Sample.slider 0 Sample.state); reflexivity.
Defined.

Lemma group_likert_nonempty_witness :
  Forall (fun g => g <> []) (group_likert Sample.two_arrays).
Proof. apply (group_likert_nonempty Sample.two_arrays). discriminate. Defined.

Lemma group_likert_reads_four_fields_witness :
  map length (group_likert Sample.two_arrays)
  = map length (group_likert Sample.two_arrays_translated)
  /\ Forall2 (Forall2 same_grouping_fields)
       (group_likert Sample.two_arrays) (group_likert Sample.two_arrays_translated).
Proof.
  apply (group_likert_reads_four_fields Sample.two_arrays Sample.two_arrays_translated).
  repeat constructor.
Defined.

Lemma setup_answer_terminated_lines_witness :
  let row := Sample.row 1 "a1" "likert" EmptyString "agree" in
  let r := setup_answer (Sample.project []) "likert" row 1 "fr" Sample.state in
  r.1 = Return tt /\
  exists texts,
    Forall2 (answer_text_of 1) ["Agree;D'accord"; "Disagree"] texts /\
    written_since Sample.state r.2 =
      imap (fun i text =>
        {| writer := by_setup_answer "likert";
           fields :=
             <["language" := "fr"]>
               (<["text" := text]>
                  (<["name" := NilZero.string_of_int (Z.to_int (Z.of_nat i + 1))]>
                     (main_config Sample.state likert_answer))) |})
        texts.
Proof.
  exact (setup_answer_terminated_lines (Sample.project [])
           "likert" (Sample.row 1 "a1" "likert" EmptyString "agree") 1 "fr"
           Sample.state ["Agree;D'accord"; "Disagree"] likert_answer eq_refl eq_refl).
Defined.

Lemma multi_question_counter_witness :
  let r := language_pass (Sample.project Sample.two_arrays) 0 "en" Sample.state in
  let merged := List.filter compound_likert (group_likert Sample.two_arrays) in
  exists k,
    k <= length merged /\
    (r.1 = Return tt -> k = length merged) /\
    code_to_multiple_question r.2 = Z.of_nat k /\
    multi_likert_names (written_since Sample.state r.2) = likert_names k /\
    NoDup (multi_likert_names (written_since Sample.state r.2)).
Proof.
  apply (multi_question_counter (Sample.project Sample.two_arrays) 0 "en" Sample.state).
  intros n l. apply reverse_Permutation.
Defined.



Lemma to_modify_keeps_names_witness :
  exists return_list,
    _to_modify Sample.settings Sample.settings_to_modify = Return return_list /\
    length return_list = length Sample.settings /\
    (fun e => e !! "name") <$> return_list = (fun e => e !! "name") <$> Sample.settings.
Proof.
  apply (to_modify_keeps_names Sample.settings Sample.settings_to_modify);
    repeat constructor; by eexists.
Defined.

Lemma to_modify_first_entry_witness :
  exists return_list,
    _to_modify Sample.settings Sample.settings_to_modify = Return return_list /\
    Forall2 (fun element r =>
      r = from_option snd element
            (list_find (fun e => e !! "name" = element !! "name")
               Sample.settings_to_modify))
      Sample.settings return_list.
Proof.
  apply (to_modify_first_entry Sample.settings Sample.settings_to_modify);
    repeat constructor; by eexists.
Defined.

Lemma to_modify_twice_witness :
  _to_modify
    ({[ "class" := "S"; "name" := "admin"; "text" := "the project" ]}
       :: tail Sample.settings)
    Sample.settings_to_modify
  = Return ({[ "class" := "S"; "name" := "admin"; "text" := "the project" ]}
              :: tail Sample.settings).
Proof.
  apply (to_modify_twice Sample.settings Sample.settings_to_modify). reflexivity.
Defined.

Lemma to_add_last_index_witness :
  _to_add [10; 20; 30] ([(5, 0%Z); (7, (-1)%Z)] ++ [(99, Z.of_nat 4)]) !! 4 = Some 99.
Proof. apply (to_add_last_index [10; 20; 30] [(5, 0%Z); (7, (-1)%Z)] 99 4). simpl. lia. Defined.


Lemma add_text_message_no_place_witness :
  _add_text_message Sample.settings_to_modify "Welcome" "welcome"
  = Return Sample.settings_to_modify.
Proof.
  apply (add_text_message_no_place Sample.settings_to_modify "Welcome" "welcome").
  repeat constructor; eexists; (split; [reflexivity | done]).
Defined.

Lemma group_likert_merged_rows_witness :
  likert_group (take 2 Sample.two_arrays) \/ yes_no_group (take 2 Sample.two_arrays).
Proof.
  apply (group_likert_merged_rows Sample.two_arrays (take 2 Sample.two_arrays)).
  - by apply (list_elem_of_lookup_2 _ 0).
  - simpl. lia.
Defined.

Lemma setup_question_row_witness :
  let row := Sample.row 1 "q1" "freetext" EmptyString EmptyString in
  let r := setup_question "freetext" row "question" "en" Sample.state in
  r.1 = Return tt /\
  written_since Sample.state r.2 =
    [{| writer := by_setup_question "freetext" row;
        fields :=
          <["other" := "N"]>
            (<["language" := "en"]>
               (<["text" := "Text of q1"]>
                  (<["name" := "q1"]> (main_config Sample.state freetext_question)))) |}] /\
  code_to_multiple_question r.2 = 7%Z.
Proof.
  exact (setup_question_row "freetext" freetext_question
           (Sample.row 1 "q1" "freetext" EmptyString EmptyString) "question" "en"
           "Text of q1" Sample.state eq_refl eq_refl eq_refl).
Defined.

Lemma setup_question_missing_column_witness :
  let row := Sample.row 1 "q1" "freetext" EmptyString EmptyString in
  let r := setup_question "freetext" row "lang_trans1" "fr" Sample.state in
  r.1 = Raise (KeyError "lang_trans1") /\
  outfile r.2 = outfile Sample.state /\
  main_config r.2 freetext_question !! "name" = Some "q1".
Proof.
  exact (setup_question_missing_column "freetext" freetext_question
           (Sample.row 1 "q1" "freetext" EmptyString EmptyString) "lang_trans1" "fr"
           Sample.state eq_refl eq_refl eq_refl).
Defined.

Lemma setup_question_unknown_type_witness :
  let r := setup_question "slider" Sample.slider "question" "en" Sample.state in
  r.1 = Raise RuntimeError /\
  outfile r.2 = outfile Sample.state /\
  stdout r.2 = stdout Sample.state ++ ["slider"].
Proof.
  exact (setup_question_unknown_type "slider" Sample.slider "question" "en"
           Sample.state eq_refl).
Defined.

Lemma check_adding_section_header_witness :
  let r := check_adding_section (Sample.project []) 2 0 "en" Sample.state in
  r.1 = Return 1%Z /\
  written_since Sample.state r.2 =
    [{| writer := by_check_adding_section 1;
        fields :=
          {[ "name" := "Section 1" ]} ∪
            <["language" := "en"]>
              (<["type/scale" := "G1"]> (main_config Sample.state group_format)) |}].
Proof.
  apply (check_adding_section_header (Sample.project []) 2 0 "en"
           {[ "name" := "Section 1" ]} Sample.state); [lia | reflexivity].
Defined.

Lemma check_adding_section_no_text_witness :
  let r := check_adding_section (Sample.project []) 6 0 "en" Sample.state in
  r.1 = Raise LookupError /\
  outfile r.2 = outfile Sample.state /\
  main_config r.2 group_format !! "language" = Some "en".
Proof.
  apply (check_adding_section_no_text (Sample.project []) 6 0 "en" Sample.state);
    [lia | reflexivity].
Defined.

Lemma setup_condition_without_bracket_witness :
  (setup_condition "age in 18 OR 19" Sample.state).1 = Return tt.
Proof.
  apply (setup_condition_without_bracket "age in 18 OR 19" Sample.state).
  simpl. intros H. repeat destruct H as [H|H]; try discriminate H. exact H.
Defined.

Lemma setup_answer_missing_file_witness :
  setup_answer (Sample.project []) "likert"
    (Sample.row 1 "a1" "likert" EmptyString "nowhere") 0 "en" Sample.state
  = (Raise (FileNotFoundError "nowhere"), Sample.state).
Proof.
  exact (setup_answer_missing_file (Sample.project []) "likert"
           (Sample.row 1 "a1" "likert" EmptyString "nowhere") 0 "en" Sample.state
           eq_refl).
Defined.

Lemma setup_answer_unknown_type_witness :
  setup_answer (Sample.project []) "multiple choice"
    (Sample.row 1 "a1" "multiple choices" EmptyString "agree") 0 "en" Sample.state
  = (Raise (UnboundLocalError "answer_row"), Sample.state).
Proof.
  exact (setup_answer_unknown_type (Sample.project []) "multiple choice"
           (Sample.row 1 "a1" "multiple choices" EmptyString "agree") 0 "en"
           Sample.state _ eq_refl eq_refl).
Defined.

Lemma yes_no_group_one_question_witness :
  let q0 := Sample.row 1 "yn1" "Y/N/NA" EmptyString EmptyString in
  let q1 := Sample.row 1 "yn2" "y/n/na" EmptyString EmptyString in
  let r := group_questions (Sample.project [q0; q1]) "question" 0 "en" [q0; q1] 0
             Sample.state in
  r.1 = Return 0%Z /\
  written_since Sample.state r.2 =
    [{| writer := by_setup_question "y/n/na" q0;
        fields :=
          <["other" := "N"]>
            (<["language" := "en"]>
               (<["text" := "Text of yn1"]>
                  (<["name" := "yn1"]> (main_config Sample.state y_n_question)))) |}].
Proof.
  apply (yes_no_group_one_question
           (Sample.project [Sample.row 1 "yn1" "Y/N/NA" EmptyString EmptyString;
                            Sample.row 1 "yn2" "y/n/na" EmptyString EmptyString])
           "question" 0 "en"
           (Sample.row 1 "yn1" "Y/N/NA" EmptyString EmptyString)
           (Sample.row 1 "yn2" "y/n/na" EmptyString EmptyString) [] 0 "Text of yn1"
           Sample.state); [reflexivity | discriminate | reflexivity | reflexivity].
Defined.

Lemma setup_subquestion_multi_likert_witness :
  let r := setup_subquestion "multi_likert" "en" (take 2 Sample.two_arrays) "question"
             Sample.state in
  r.1 = Return tt /\
  written_since Sample.state r.2 =
    zip_with (fun (row : Row) text =>
      {| writer := by_setup_subquestion "multi_likert";
         fields :=
           <["text" := text]>
             (<["name" := code row]>
                (<["language" := "en"]>
                   (<["relevance" := "1"]> (main_config Sample.state subquestion)))) |})
      (take 2 Sample.two_arrays) ["Text of a1"; "Text of a2"].
Proof.
  apply (setup_subquestion_multi_likert "en" (take 2 Sample.two_arrays) "question"
           ["Text of a1"; "Text of a2"] Sample.state).
  simpl. repeat constructor.
Defined.

Lemma create_survey_questions_empty_survey_witness :
  let r := create_survey_questions (Sample.project []) ["en"; "fr"] Sample.state in
  r.1 = Return tt /\ outfile r.2 = outfile Sample.state /\
  main_config r.2 = main_config Sample.state.
Proof.
  exact (create_survey_questions_empty_survey (Sample.project []) ["en"; "fr"]
           Sample.state eq_refl).
Defined.
